(** * PaperInsight: the analysis client, the application controller and the
      PDF viewer, embedded from the TypeScript sources

    - [JS], [JSON] : the pieces of the JavaScript runtime the sources rely
                   on (thrown values, truthiness, [includes], [split],
                   [parseInt]); [JSON.parse] and [JSON.stringify] are
                   parameters ([JsonRuntime]), with a small instance
                   ([MiniJSON]) to run the definitions.
    - [Service]  : src/services/geminiService.ts ([analyzePaper],
                   [translateAnalysis], the response schema).
    - [Upload]   : src/components/FileUpload.tsx ([handleDrop],
                   [handleChange]).
    - [App]      : src/App.tsx, as an event-driven transition system over
                   the component state and a trace of effects.
    - [Viewer]   : src/components/PdfViewer.tsx (page navigation and the
                   asynchronous [renderPage]).

    Asynchronous functions are split at their [await]s: the part before the
    [await] runs when the handler is called, the continuation runs when the
    environment delivers the outcome of the awaited operation.  Events reach
    the component one at a time, each handled by the listeners in place: the
    handlers React attaches are those of the render committed last, the
    wheel listener of the viewer is the one its passive effect registered
    last; a control that is not rendered, or rendered disabled, delivers
    nothing. *)

From Stdlib Require Import ZArith Lia Bool String Ascii DecimalString.
From stdpp Require Import base list strings.

Local Open Scope string_scope.

(* ================================================================== *)
(** * The JavaScript runtime, as far as the sources use it *)
(* ================================================================== *)

Module JS.

(** A value carried by [throw] or by a rejected promise.  [ErrorObject] is
    an instance of [Error]; [OtherValue] is anything else (for instance the
    [ProgressEvent] a [FileReader] hands to [onerror]) together with its
    [message] property when it has a string one. *)
Inductive Thrown : Type :=
| ErrorObject (name message : string)
| OtherValue (message : option string).

Definition instanceofError (e : Thrown) : bool :=
  match e with
  | ErrorObject _ _ => true
  | OtherValue _ => false
  end.

Definition message (e : Thrown) : option string :=
  match e with
  | ErrorObject _ m => Some m
  | OtherValue m => m
  end.

Definition name (e : Thrown) : option string :=
  match e with
  | ErrorObject n _ => Some n
  | OtherValue _ => None
  end.

(** [new Error(msg)] *)
Definition newError (msg : string) : Thrown := ErrorObject "Error" msg.

(** Truthiness of a value of type [string | undefined]. *)
Definition truthy (v : option string) : bool :=
  match v with
  | Some s => negb (String.eqb s "")
  | None => false
  end.

(** [s.includes(sub)] *)
Fixpoint includes (s sub : string) : bool :=
  String.prefix sub s ||
  match s with
  | EmptyString => false
  | String _ s' => includes s' sub
  end.

(** [s.split(sep)] for a one-character separator. *)
Fixpoint split (sep : ascii) (s : string) : list string :=
  match s with
  | EmptyString => [EmptyString]
  | String c s' =>
      if Ascii.eqb c sep then EmptyString :: split sep s'
      else match split sep s' with
           | [] => [String c EmptyString]
           | w :: ws => String c w :: ws
           end
  end.

(** ** [parseInt(s)] with no radix argument.

    [None] stands for [NaN].  A string is the sequence of the bytes of its
    UTF-8 encoding.  The value is the mathematical integer, which agrees
    with the double the runtime computes as long as it is compared with
    integers below 2^53 (page counts are). *)

(** The members of [StrWhiteSpaceChar] that are one byte long: TAB, LF, VT,
    FF, CR and SP. *)
Definition isWhiteSpace (c : ascii) : bool :=
  let n := N_of_ascii c in
  ((9 <=? n) && (n <=? 13) || (n =? 32))%N.

(** The first byte of the longer members of [StrWhiteSpaceChar]. *)
Definition isWideLead (c : ascii) : bool :=
  let n := N_of_ascii c in
  ((n =? 194) || (n =? 225) || (n =? 226) || (n =? 227) || (n =? 239))%N.

(** U+00A0. *)
Definition isWide2 (c d : ascii) : bool :=
  ((N_of_ascii c =? 194) && (N_of_ascii d =? 160))%N.

(** U+1680, U+2000 to U+200A, U+2028, U+2029, U+202F, U+205F, U+3000 and
    U+FEFF. *)
Definition isWide3 (c d e : ascii) : bool :=
  let '(x, y, z) := (N_of_ascii c, N_of_ascii d, N_of_ascii e) in
  ((x =? 225) && (y =? 154) && (z =? 128) ||
   (x =? 226) && (y =? 128) &&
     ((128 <=? z) && (z <=? 138) || (z =? 168) || (z =? 169) || (z =? 175)) ||
   (x =? 226) && (y =? 129) && (z =? 159) ||
   (x =? 227) && (y =? 128) && (z =? 128) ||
   (x =? 239) && (y =? 187) && (z =? 191))%N.

(** The string without its leading [StrWhiteSpaceChar]s. *)
Fixpoint trimStart (s : string) : string :=
  match s with
  | EmptyString => EmptyString
  | String c s1 =>
      if isWhiteSpace c then trimStart s1
      else if isWideLead c then
        match s1 with
        | String d s2 =>
            if isWide2 c d then trimStart s2
            else
              match s2 with
              | String e s3 => if isWide3 c d e then trimStart s3 else s
              | EmptyString => s
              end
        | EmptyString => s
        end
      else s
  end.

Definition digitValue (radix : Z) (c : ascii) : option Z :=
  let n := Z.of_N (N_of_ascii c) in
  let v :=
    if ((48 <=? n) && (n <=? 57))%Z then Some (n - 48)%Z
    else if ((97 <=? n) && (n <=? 122))%Z then Some (n - 87)%Z
    else if ((65 <=? n) && (n <=? 90))%Z then Some (n - 55)%Z
    else None in
  match v with
  | Some d => if (d <? radix)%Z then Some d else None
  | None => None
  end.

(** The longest prefix of radix-[radix] digits, read as a number; [acc] is
    [None] until a first digit has been seen. *)
Fixpoint digits (radix : Z) (s : string) (acc : option Z) : option Z :=
  match s with
  | String c s' =>
      match digitValue radix c with
      | Some d => digits radix s' (Some (radix * default 0 acc + d)%Z)
      | None => acc
      end
  | EmptyString => acc
  end.

Definition parseInt (s : string) : option Z :=
  let s1 := trimStart s in
  let '(sign, s2) :=
    match s1 with
    | String "-" r => ((-1)%Z, r)
    | String "+" r => (1%Z, r)
    | _ => (1%Z, s1)
    end in
  let '(radix, s3) :=
    match s2 with
    | String "0" (String "x" r) => (16%Z, r)
    | String "0" (String "X" r) => (16%Z, r)
    | _ => (10%Z, s2)
    end in
  option_map (Z.mul sign) (digits radix s3 None).

(** [n.toString()] for an integer [n]. *)
Definition toString (n : Z) : string := NilZero.string_of_int (Z.to_int n).

End JS.

(* ================================================================== *)
(** * JSON values *)
(* ================================================================== *)

(** What [JSON.parse] returns.  Numbers are kept to the integers: none of the
    fields of the response schema is a number. *)
#[local] Set Warnings "-register-all".
Inductive json : Type :=
| JNull
| JBool (b : bool)
| JNumber (n : Z)
| JString (s : string)
| JArray (items : list json)
| JObject (fields : list (string * json)).

Module JSON.

(** [obj[key]]: [None] is [undefined].  When a key occurs more than once in
    the source text, [JSON.parse] keeps the last occurrence. *)
Fixpoint lookup_last (key : string) (fields : list (string * json))
  : option json :=
  match fields with
  | [] => None
  | (k, v) :: rest =>
      match lookup_last key rest with
      | Some v' => Some v'
      | None => if String.eqb k key then Some v else None
      end
  end.

Definition get (j : json) (key : string) : option json :=
  match j with
  | JObject fields => lookup_last key fields
  | _ => None
  end.

Definition hasField (j : json) (key : string) : bool :=
  match get j key with
  | Some _ => true
  | None => false
  end.

(** Truthiness of a parsed value: [null], [false], [0] and the empty string
    are falsy, every object and array is truthy. *)
Definition truthy (j : json) : bool :=
  match j with
  | JNull => false
  | JBool b => b
  | JNumber n => negb (Z.eqb n 0)
  | JString s => negb (String.eqb s "")
  | JArray _ | JObject _ => true
  end.

Definition isString (j : json) : bool :=
  match j with JString _ => true | _ => false end.

Definition isStringArray (j : json) : bool :=
  match j with JArray l => forallb isString l | _ => false end.

End JSON.

(* ================================================================== *)
(** * src/types.ts *)
(* ================================================================== *)

(** [interface PaperAnalysis] is a compile-time type: the values that flow
    through the program under that type are whatever [JSON.parse] returned,
    cast with [as PaperAnalysis].  [conforms] is the interface as a runtime
    check; the sources never run it. *)
Definition PaperAnalysis : Type := json.

Definition requiredFields : list string :=
  ["problemSolved"; "innovations"; "comparisonMethods"; "limitations";
   "summary"].

Definition hasAllFields (j : json) : bool :=
  forallb (JSON.hasField j) requiredFields.

Definition conforms (j : json) : bool :=
  match JSON.get j "problemSolved", JSON.get j "innovations",
        JSON.get j "comparisonMethods", JSON.get j "limitations",
        JSON.get j "summary" with
  | Some p, Some i, Some c, Some l, Some s =>
      JSON.isString p && JSON.isStringArray i && JSON.isStringArray c &&
      JSON.isStringArray l && JSON.isString s
  | _, _, _, _, _ => false
  end.

(** Truthiness of a cell of type [PaperAnalysis | null]. *)
Definition truthyData (d : option PaperAnalysis) : bool :=
  match d with
  | Some j => JSON.truthy j
  | None => false
  end.

(** What a cell of type [PaperAnalysis | null] holds once a parsed value
    is stored in it: the [null] that [JSON.parse] returns is the [null] of
    the empty cell. *)
Definition cell (j : PaperAnalysis) : option PaperAnalysis :=
  match j with
  | JNull => None
  | _ => Some j
  end.

(** [interface AnalysisState] *)
Record AnalysisState : Type := mkAnalysisState {
  isLoading : bool;
  error : option string;
  data : option PaperAnalysis
}.

(* ================================================================== *)
(** * The [JSON] object of the runtime *)
(* ================================================================== *)

(** [JSON.parse] and [JSON.stringify] are builtins; the development is
    parametric in them.  [JSON_parse] returns the thrown [SyntaxError] on a
    text that is not JSON. *)
Class JsonRuntime : Type := {
  JSON_parse : string -> JS.Thrown + json;
  JSON_stringify : json -> string
}.

(** A small instance, used to run the definitions on concrete texts.  It
    covers objects, arrays, strings with the single-character escapes,
    integers and the three literals. *)
Module MiniJSON.

Definition dquote : ascii := "034"%char.
Definition backslash : ascii := "092"%char.

(** [quote s] is [s] between double quotes (no escaping). *)
Definition quote (s : string) : string :=
  String dquote (s ++ String dquote EmptyString).

Definition isJsonSpace (c : ascii) : bool :=
  let n := N_of_ascii c in
  ((n =? 32) || (n =? 9) || (n =? 10) || (n =? 13))%N.

Fixpoint skipWs (s : string) : string :=
  match s with
  | String c r => if isJsonSpace c then skipWs r else s
  | EmptyString => EmptyString
  end.

Definition unescape (c : ascii) : option ascii :=
  match c with
  | "034" => Some "034" | "092" => Some "092" | "/" => Some "/"
  | "b" => Some "008" | "f" => Some "012" | "n" => Some "010"
  | "r" => Some "013" | "t" => Some "009"
  | _ => None
  end%char.

(** The text after an opening quote: the string up to the closing quote,
    and what follows it. *)
Fixpoint parseStringBody (s : string) : option (string * string) :=
  match s with
  | EmptyString => None
  | String c r =>
      if Ascii.eqb c dquote then Some (EmptyString, r)
      else if Ascii.eqb c backslash then
        match r with
        | String e r' =>
            match unescape e, parseStringBody r' with
            | Some ch, Some (body, rest) => Some (String ch body, rest)
            | _, _ => None
            end
        | EmptyString => None
        end
      else if (N_of_ascii c <? 32)%N then None
      else match parseStringBody r with
           | Some (body, rest) => Some (String c body, rest)
           | None => None
           end
  end.

Definition isDigit (c : ascii) : bool :=
  let n := N_of_ascii c in ((48 <=? n) && (n <=? 57))%N.

Fixpoint spanDigits (s : string) : string * string :=
  match s with
  | String c r =>
      if isDigit c then let '(ds, rest) := spanDigits r in (String c ds, rest)
      else (EmptyString, s)
  | EmptyString => (EmptyString, EmptyString)
  end.

Definition parseNumber (s : string) : option (json * string) :=
  let '(neg, s1) :=
    match s with String "-" r => (true, r) | _ => (false, s) end in
  let '(ds, rest) := spanDigits s1 in
  let leadingZero :=
    match ds with String "0" (String _ _) => true | _ => false end in
  let continues :=
    match rest with
    | String "." _ | String "e" _ | String "E" _ => true
    | _ => false
    end in
  if String.eqb ds "" || leadingZero || continues then None
  else match JS.digits 10 ds None with
       | Some n => Some (JNumber (if neg then - n else n)%Z, rest)
       | None => None
       end.

Definition parseLiteral (s : string) : option (json * string) :=
  match s with
  | String "t" (String "r" (String "u" (String "e" r))) =>
      Some (JBool true, r)
  | String "f" (String "a" (String "l" (String "s" (String "e" r)))) =>
      Some (JBool false, r)
  | String "n" (String "u" (String "l" (String "l" r))) => Some (JNull, r)
  | _ => parseNumber s
  end.

Fixpoint parseValue (fuel : nat) (s : string) : option (json * string) :=
  match fuel with
  | O => None
  | S n =>
      match skipWs s with
      | String "{" r =>
          match skipWs r with
          | String "}" r' => Some (JObject [], r')
          | r1 =>
              match parseMembers n r1 with
              | Some (fs, r') => Some (JObject fs, r')
              | None => None
              end
          end
      | String "[" r =>
          match skipWs r with
          | String "]" r' => Some (JArray [], r')
          | r1 =>
              match parseElements n r1 with
              | Some (vs, r') => Some (JArray vs, r')
              | None => None
              end
          end
      | String "034" r =>
          match parseStringBody r with
          | Some (str, r') => Some (JString str, r')
          | None => None
          end
      | other => parseLiteral other
      end
  end
with parseElements (fuel : nat) (s : string) : option (list json * string) :=
  match fuel with
  | O => None
  | S n =>
      match parseValue n s with
      | Some (v, r) =>
          match skipWs r with
          | String "," r' =>
              match parseElements n r' with
              | Some (vs, r'') => Some (v :: vs, r'')
              | None => None
              end
          | String "]" r' => Some ([v], r')
          | _ => None
          end
      | None => None
      end
  end
with parseMembers (fuel : nat) (s : string)
  : option (list (string * json) * string) :=
  match fuel with
  | O => None
  | S n =>
      match skipWs s with
      | String "034" r =>
          match parseStringBody r with
          | Some (k, r1) =>
              match skipWs r1 with
              | String ":" r2 =>
                  match parseValue n r2 with
                  | Some (v, r3) =>
                      match skipWs r3 with
                      | String "," r4 =>
                          match parseMembers n r4 with
                          | Some (fs, r5) => Some ((k, v) :: fs, r5)
                          | None => None
                          end
                      | String "}" r4 => Some ([(k, v)], r4)
                      | _ => None
                      end
                  | None => None
                  end
              | _ => None
              end
          | None => None
          end
      | _ => None
      end
  end.

Definition syntaxError : JS.Thrown :=
  JS.ErrorObject "SyntaxError" "Unexpected token in JSON".

Definition parse (text : string) : JS.Thrown + json :=
  match parseValue (2 * String.length text + 2) text with
  | Some (j, rest) =>
      if String.eqb (skipWs rest) "" then inr j else inl syntaxError
  | None => inl syntaxError
  end.

Definition escapeChar (c : ascii) : string :=
  match c with
  | "034" => String backslash (String "034" "")
  | "092" => String backslash (String "092" "")
  | "008" => String backslash "b"
  | "012" => String backslash "f"
  | "010" => String backslash "n"
  | "013" => String backslash "r"
  | "009" => String backslash "t"
  | _ => String c ""
  end%char.

Fixpoint escape (s : string) : string :=
  match s with
  | String c r => escapeChar c ++ escape r
  | EmptyString => EmptyString
  end.

Fixpoint stringify (j : json) : string :=
  match j with
  | JNull => "null"
  | JBool true => "true"
  | JBool false => "false"
  | JNumber n => JS.toString n
  | JString s => quote (escape s)
  | JArray vs => "[" ++ String.concat "," (map stringify vs) ++ "]"
  | JObject fs =>
      "{" ++
      String.concat ","
        (map (fun kv => quote (escape (fst kv)) ++ ":" ++ stringify (snd kv))
             fs) ++
      "}"
  end.

#[export] Instance runtime : JsonRuntime :=
  {| JSON_parse := parse; JSON_stringify := stringify |}.

End MiniJSON.

(* ================================================================== *)
(** * Browser objects *)
(* ================================================================== *)

Module DOM.

(** A [File]: its name and its MIME type.  Its bytes are only ever seen
    through a [FileReader], whose outcome is supplied by the environment. *)
Record File : Type := mkFile { name : string; type : string }.

(** An object URL, identified by the order in which it was minted. *)
Definition ObjectURL : Type := nat.

End DOM.

(* ================================================================== *)
(** * src/services/geminiService.ts *)
(* ================================================================== *)

Module Service.

(** [Schema] objects of the client library, as far as [analysisSchema]
    uses them. *)
Inductive Schema : Type :=
| STRING (description : option string)
| ARRAY (items : Schema) (description : option string)
| OBJECT (properties : list (string * Schema)) (required : list string).

Definition analysisSchema : Schema :=
  OBJECT
    [("problemSolved",
      STRING (Some "A concise explanation of the core problem the paper aims to solve."));
     ("innovations",
      ARRAY (STRING None)
        (Some "List of main contributions or innovations proposed in the paper."));
     ("comparisonMethods",
      ARRAY (STRING None)
        (Some "List of existing methods or baselines the paper compares against."));
     ("limitations",
      ARRAY (STRING None)
        (Some "List of limitations, defects, or future work mentioned in the paper."));
     ("summary",
      STRING (Some "A brief executive summary of the entire paper."))]
    ["problemSolved"; "innovations"; "comparisonMethods"; "limitations";
     "summary"].

(** The argument of [ai.models.generateContent], with the key the client
    was constructed with. *)
Inductive Part : Type :=
| inlineData (mimeType : string) (data : option string)
| text (t : string).

Record Config : Type := mkConfig {
  responseMimeType : string;
  responseSchema : Schema;
  systemInstruction : option string
}.

Record Request : Type := mkRequest {
  apiKey : string;
  model : string;
  parts : list Part;
  config : Config
}.

(** What a call leaves behind besides its result. *)
Inductive Effect : Type :=
| Network (req : Request)
| ConsoleError (label : string) (err : JS.Thrown).

(** The error kinds of the specification; the code throws plain [Error]s,
    the kind records which statement threw.  [FileReadError] is a
    rejection of [processFileToBase64]. *)
Inductive FailureKind : Type :=
| MissingCredential
| FileReadError
| UpstreamError
| SchemaViolation.

Inductive Outcome : Type :=
| Resolved (value : PaperAnalysis)
| Rejected (kind : FailureKind) (err : JS.Thrown).

(** [process.env] *)
Record Env : Type := mkEnv { API_KEY : option string }.

(** What the environment answers to one call of [analyzePaper]:
    [reader] is the [FileReader] outcome ([onerror]'s argument, or
    [reader.result]), [generated] is the outcome of [generateContent]
    (a thrown value, or [response.text]). *)
Record AnalyzeIO : Type := mkAnalyzeIO {
  reader : JS.Thrown + string;
  generated : JS.Thrown + option string
}.

Definition TranslateIO : Type := (JS.Thrown + option string)%type.

Definition processFileToBase64 (r : JS.Thrown + string)
  : JS.Thrown + option string :=
  match r with
  | inl error => inl error
  | inr result => inr (JS.split "," result !! 1%nat)
  end.

Definition analyzePrompt : string :=
  "Analyze this research paper. Identify the problem it solves, its key innovations, the methods it compares against, and its limitations or defects. Provide a structured response.".

Definition analyzeRequest (key : string) (base64Data : option string)
  : Request :=
  {| apiKey := key;
     model := "gemini-2.5-flash";
     parts := [inlineData "application/pdf" base64Data; text analyzePrompt];
     config :=
       {| responseMimeType := "application/json";
          responseSchema := analysisSchema;
          systemInstruction :=
            Some "You are an expert academic researcher. Your goal is to critically analyze research papers and extract key insights concisely." |} |}.

Definition newline : string := String "010"%char EmptyString.
Definition indent : string := "            ".

(** The template literal of [translateAnalysis] up to its placeholder. *)
Definition translatePrompt : string :=
  "Translate the values of the following JSON object into simplified Chinese. " ++ newline ++
  indent ++ "Maintain the exact same JSON structure and keys. Do not translate the keys." ++ newline ++
  indent ++ "Ensure the tone is professional and academic." ++ newline ++
  newline ++
  indent ++ "Input JSON:" ++ newline ++
  indent.

Section WithRuntime.
Context `{JsonRuntime}.

(** The body of the [try] once [response.text] is known: an empty answer
    throws, anything else goes through [JSON.parse] and is returned
    under a cast. *)
Definition readResponse (response_text : option string)
  : JS.Thrown + PaperAnalysis :=
  if negb (JS.truthy response_text) then
    inl (JS.newError "No response received from Gemini.")
  else JSON_parse (default "" response_text).

Definition analyzePaper (env : Env) (file : DOM.File) (io : AnalyzeIO)
  : Outcome * list Effect :=
  if negb (JS.truthy (API_KEY env)) then
    (Rejected MissingCredential
       (JS.newError "API Key is missing. Please check your environment configuration."),
     [])
  else
    match processFileToBase64 (reader io) with
    | inl error => (Rejected FileReadError error, [])
    | inr base64Data =>
        let req := analyzeRequest (default "" (API_KEY env)) base64Data in
        match generated io with
        | inl error =>
            (Rejected UpstreamError error,
             [Network req; ConsoleError "Error analyzing paper:" error])
        | inr response_text =>
            match readResponse response_text with
            | inl error =>
                (Rejected
                   (if JS.truthy response_text then SchemaViolation
                    else UpstreamError) error,
                 [Network req; ConsoleError "Error analyzing paper:" error])
            | inr value => (Resolved value, [Network req])
            end
        end
    end.

Definition translateRequest (key : string) (data : PaperAnalysis)
  : Request :=
  {| apiKey := key;
     model := "gemini-2.5-flash";
     parts := [text (translatePrompt ++ JSON_stringify data)];
     config :=
       {| responseMimeType := "application/json";
          responseSchema := analysisSchema;
          systemInstruction := None |} |}.

Definition translateAnalysis (env : Env) (data : PaperAnalysis)
  (io : TranslateIO) : Outcome * list Effect :=
  if negb (JS.truthy (API_KEY env)) then
    (Rejected MissingCredential (JS.newError "API Key is missing."), [])
  else
    let req := translateRequest (default "" (API_KEY env)) data in
    match io with
    | inl error =>
        (Rejected UpstreamError error,
         [Network req; ConsoleError "Error translating analysis:" error])
    | inr response_text =>
        match readResponse response_text with
        | inl error =>
            (Rejected
               (if JS.truthy response_text then SchemaViolation
                else UpstreamError) error,
             [Network req; ConsoleError "Error translating analysis:" error])
        | inr value => (Resolved value, [Network req])
        end
    end.

End WithRuntime.

Definition networkOf (effects : list Effect) : list Request :=
  omap (fun e => match e with Network r => Some r | _ => None end) effects.

End Service.

(* ================================================================== *)
(** * src/components/FileUpload.tsx *)
(* ================================================================== *)

Module Upload.

(** What a handler of the upload surface does to the outside: it calls
    the [onFileSelect] property, or it raises an [alert]. *)
Inductive Action : Type :=
| onFileSelect (file : DOM.File)
| alert (msg : string).

(** [files] is [e.dataTransfer.files]. *)
Definition handleDrop (files : list DOM.File) : list Action :=
  match files with
  | file :: _ =>
      if String.eqb (DOM.type file) "application/pdf" then [onFileSelect file]
      else [alert "Please upload a PDF file."]
  | [] => []
  end.

(** [files] is [e.target.files]. *)
Definition handleChange (files : list DOM.File) : list Action :=
  match files with
  | file :: _ => [onFileSelect file]
  | [] => []
  end.

End Upload.

(* ================================================================== *)
(** * src/App.tsx *)
(* ================================================================== *)

Module App.

Inductive Language : Type := en | zh.

#[export] Instance Language_eq_dec : EqDecision Language.
Proof. solve_decision. Defined.

(** The [useState] cells of the component. *)
Record State : Type := mkState {
  state : AnalysisState;
  fileName : option string;
  pdfUrl : option DOM.ObjectURL;
  translatedData : option PaperAnalysis;
  language : Language;
  isTranslating : bool
}.

(** Calls of the analysis client. *)
Inductive Call : Type :=
| analyzePaper (file : DOM.File)
| translateAnalysis (data : PaperAnalysis).

(** Everything the component does to the outside. *)
Inductive Effect : Type :=
| Invoke (c : Call)
| Settled (c : Call) (o : Service.Outcome)
| Client (e : Service.Effect)
| ConsoleError (label : string) (err : JS.Thrown)
| Alert (msg : string)
| CreateObjectURL (file : DOM.File) (url : DOM.ObjectURL)
| RevokeObjectURL (url : DOM.ObjectURL).

(** The component together with its surroundings: [minted] counts the
    object URLs created so far, which is also the number of files selected
    so far; [trace] records the effects in order, each with the value of
    [minted] at the time (the session it falls in); [analyses] and
    [translations] are the client calls that have not settled yet.  What a
    client call does (its request, its log entries) is recorded when the
    call settles, all at once: the trace tells which effects a call had and
    in which session it settled, not the moment its request was sent. *)
Record Config : Type := mkConfig {
  ui : State;
  minted : nat;
  trace : list (nat * Effect);
  analyses : list DOM.File;
  translations : list PaperAnalysis
}.

Definition initialState : State :=
  {| state := {| isLoading := false; error := None; data := None |};
     fileName := None;
     pdfUrl := None;
     translatedData := None;
     language := en;
     isTranslating := false |}.

Definition initial : Config :=
  {| ui := initialState; minted := 0; trace := [];
     analyses := []; translations := [] |}.

Definition emit (e : Effect) (c : Config) : Config :=
  {| ui := ui c; minted := minted c; trace := trace c ++ [(minted c, e)];
     analyses := analyses c; translations := translations c |}.

Definition emitAll (es : list Effect) (c : Config) : Config :=
  foldl (fun acc e => emit e acc) c es.

Definition setUi (f : State -> State) (c : Config) : Config :=
  {| ui := f (ui c); minted := minted c; trace := trace c;
     analyses := analyses c; translations := translations c |}.

Definition setState (a : AnalysisState) (s : State) : State :=
  {| state := a; fileName := fileName s; pdfUrl := pdfUrl s;
     translatedData := translatedData s; language := language s;
     isTranslating := isTranslating s |}.

Definition setFileName (n : option string) (s : State) : State :=
  {| state := state s; fileName := n; pdfUrl := pdfUrl s;
     translatedData := translatedData s; language := language s;
     isTranslating := isTranslating s |}.

Definition setPdfUrl (u : option DOM.ObjectURL) (s : State) : State :=
  {| state := state s; fileName := fileName s; pdfUrl := u;
     translatedData := translatedData s; language := language s;
     isTranslating := isTranslating s |}.

Definition setTranslatedData (d : option PaperAnalysis) (s : State) : State :=
  {| state := state s; fileName := fileName s; pdfUrl := pdfUrl s;
     translatedData := d; language := language s;
     isTranslating := isTranslating s |}.

Definition setLanguage (l : Language) (s : State) : State :=
  {| state := state s; fileName := fileName s; pdfUrl := pdfUrl s;
     translatedData := translatedData s; language := l;
     isTranslating := isTranslating s |}.

Definition setIsTranslating (b : bool) (s : State) : State :=
  {| state := state s; fileName := fileName s; pdfUrl := pdfUrl s;
     translatedData := translatedData s; language := language s;
     isTranslating := b |}.

(** [URL.createObjectURL(file)]: a URL that was never handed out before. *)
Definition createObjectURL (file : DOM.File) (c : Config)
  : DOM.ObjectURL * Config :=
  let url := S (minted c) in
  (url,
   {| ui := ui c; minted := url;
      trace := trace c ++ [(url, CreateObjectURL file url)];
      analyses := analyses c; translations := translations c |}).

Definition startAnalysis (file : DOM.File) (c : Config) : Config :=
  let c := emit (Invoke (analyzePaper file)) c in
  {| ui := ui c; minted := minted c; trace := trace c;
     analyses := analyses c ++ [file]; translations := translations c |}.

Definition startTranslation (d : PaperAnalysis) (c : Config) : Config :=
  let c := emit (Invoke (translateAnalysis d)) c in
  {| ui := ui c; minted := minted c; trace := trace c;
     analyses := analyses c; translations := translations c ++ [d] |}.

Definition dropAnalysis (k : nat) (c : Config) : Config :=
  {| ui := ui c; minted := minted c; trace := trace c;
     analyses := delete k (analyses c); translations := translations c |}.

Definition dropTranslation (k : nat) (c : Config) : Config :=
  {| ui := ui c; minted := minted c; trace := trace c;
     analyses := analyses c; translations := delete k (translations c) |}.

(** ** [handleFileSelect] *)

(** Up to the [await]: the statements of lines 33 to 46 with the values of
    the render the handler closes over. *)
Definition handleFileSelect (file : DOM.File) (c : Config) : Config :=
  let c :=
    match pdfUrl (ui c) with
    | Some u => emit (RevokeObjectURL u) c
    | None => c
    end in
  let c := setUi (setTranslatedData None) c in
  let c := setUi (setLanguage en) c in
  let '(url, c) := createObjectURL file c in
  let c := setUi (setPdfUrl (Some url)) c in
  let c := setUi (setFileName (Some (DOM.name file))) c in
  let c :=
    setUi (setState {| isLoading := true; error := None; data := None |}) c in
  startAnalysis file c.

(** The message computed by the [catch] block. *)
Definition errorMessage (err : JS.Thrown) : string :=
  let errorMessage := "An unexpected error occurred." in
  let errorMessage :=
    if JS.instanceofError err then default "" (JS.message err)
    else errorMessage in
  match JS.message err with
  | Some m =>
      if JS.includes m "API Key"
      then "Missing API Key. Please verify your settings."
      else errorMessage
  | None => errorMessage
  end.

(** After the [await]. *)
Definition handleFileSelect_settled (o : Service.Outcome) (c : Config)
  : Config :=
  match o with
  | Service.Resolved d =>
      setUi (setState {| isLoading := false; error := None; data := cell d |})
            c
  | Service.Rejected _ err =>
      let c := emit (ConsoleError "" err) c in
      setUi (setState {| isLoading := false;
                         error := Some (errorMessage err);
                         data := None |}) c
  end.

(** ** [handleReset] *)
Definition handleReset (c : Config) : Config :=
  let c :=
    setUi (setState {| isLoading := false; error := None; data := None |}) c in
  let c := setUi (setFileName None) c in
  let c := setUi (setPdfUrl None) c in
  let c := setUi (setTranslatedData None) c in
  setUi (setLanguage en) c.

(** ** [handleLanguageToggle] *)

(** Up to the [await], or the whole handler when nothing is awaited. *)
Definition handleLanguageToggle (targetLang : Language) (c : Config)
  : Config :=
  if decide (targetLang = language (ui c)) then c
  else
    match data (state (ui c)) with
    | Some d =>
        if bool_decide (targetLang = zh) &&
           negb (truthyData (translatedData (ui c))) && JSON.truthy d
        then
          let c := setUi (setIsTranslating true) c in
          startTranslation d c
        else setUi (setLanguage targetLang) c
    | None => setUi (setLanguage targetLang) c
    end.

(** After the [await]: [try] continuation or [catch], then [finally]. *)
Definition handleLanguageToggle_settled (o : Service.Outcome) (c : Config)
  : Config :=
  let c :=
    match o with
    | Service.Resolved result =>
        let c := setUi (setTranslatedData (cell result)) c in
        setUi (setLanguage zh) c
    | Service.Rejected _ err =>
        let c := emit (ConsoleError "Translation failed:" err) c in
        emit (Alert "Translation failed. Please try again.") c
    end in
  setUi (setIsTranslating false) c.

(** [currentAnalysis] *)
Definition currentAnalysis (s : State) : option PaperAnalysis :=
  if bool_decide (language s = zh) && truthyData (translatedData s)
  then translatedData s
  else data (state s).

(** ** The cleanup of the object-URL effect

    [useEffect(() => () => { if (pdfUrl) URL.revokeObjectURL(pdfUrl) },
    [pdfUrl])]: when a render commits a different [pdfUrl], the cleanup of
    the previous render runs with the previous value. *)
Definition commit (before after : Config) : Config :=
  match pdfUrl (ui before) with
  | Some u =>
      if decide (pdfUrl (ui after) = Some u) then after
      else emit (RevokeObjectURL u) after
  | None => after
  end.

(** ** Events *)

Inductive Event : Type :=
| DropFiles (files : list DOM.File)
| ChangeFiles (files : list DOM.File)
| ClickReset
| ClickLanguage (targetLang : Language)
| AnalysisSettles (k : nat) (io : Service.AnalyzeIO)
| TranslationSettles (k : nat) (io : Service.TranslateIO).

(** Which events the rendered page can deliver.  The upload surface is
    rendered when [!pdfUrl] and its input is [disabled={isLoading}]; the
    reset buttons are rendered when [pdfUrl]; the language buttons are
    rendered when [pdfUrl] and [state.data], and are
    [disabled={isTranslating}]; a call settles once, if it is in flight. *)
Definition enabled (ev : Event) (c : Config) : bool :=
  match ev with
  | DropFiles _ => bool_decide (pdfUrl (ui c) = None)
  | ChangeFiles _ =>
      bool_decide (pdfUrl (ui c) = None) && negb (isLoading (state (ui c)))
  | ClickReset => bool_decide (is_Some (pdfUrl (ui c)))
  | ClickLanguage _ =>
      bool_decide (is_Some (pdfUrl (ui c))) &&
      truthyData (data (state (ui c))) &&
      negb (isTranslating (ui c))
  | AnalysisSettles k _ => bool_decide (k < length (analyses c))
  | TranslationSettles k _ => bool_decide (k < length (translations c))
  end.

Definition perform (a : Upload.Action) (c : Config) : Config :=
  match a with
  | Upload.onFileSelect file => handleFileSelect file c
  | Upload.alert msg => emit (Alert msg) c
  end.

Section WithRuntime.
Context `{JsonRuntime}.
Variable env : Service.Env.

Definition handle (ev : Event) (c : Config) : Config :=
  match ev with
  | DropFiles files => foldl (fun acc a => perform a acc) c (Upload.handleDrop files)
  | ChangeFiles files =>
      foldl (fun acc a => perform a acc) c (Upload.handleChange files)
  | ClickReset => handleReset c
  | ClickLanguage targetLang => handleLanguageToggle targetLang c
  | AnalysisSettles k io =>
      match analyses c !! k with
      | Some file =>
          let '(o, effects) := Service.analyzePaper env file io in
          let c := dropAnalysis k c in
          let c := emitAll (map Client effects) c in
          let c := emit (Settled (analyzePaper file) o) c in
          handleFileSelect_settled o c
      | None => c
      end
  | TranslationSettles k io =>
      match translations c !! k with
      | Some d =>
          let '(o, effects) := Service.translateAnalysis env d io in
          let c := dropTranslation k c in
          let c := emitAll (map Client effects) c in
          let c := emit (Settled (translateAnalysis d) o) c in
          handleLanguageToggle_settled o c
      | None => c
      end
  end.

Definition step (c : Config) (ev : Event) : Config :=
  if enabled ev c then commit c (handle ev c) else c.

Definition run (evs : list Event) (c : Config) : Config :=
  foldl step c evs.

End WithRuntime.

(** ** Observations on a trace *)

Definition isAnalyze (e : Effect) : bool :=
  match e with Invoke (analyzePaper _) => true | _ => false end.

Definition isTranslate (e : Effect) : bool :=
  match e with Invoke (translateAnalysis _) => true | _ => false end.

(** A call of [translateAnalysis] settles without leaving a translation
    the toggle will take as cached: it rejects, or it resolves to a falsy
    value. *)
Definition isTranslationUnused (e : Effect) : bool :=
  match e with
  | Settled (translateAnalysis _) (Service.Rejected _ _) => true
  | Settled (translateAnalysis _) (Service.Resolved v) => negb (JSON.truthy v)
  | _ => false
  end.

Definition isCreate (u : DOM.ObjectURL) (e : Effect) : bool :=
  match e with CreateObjectURL _ v => Nat.eqb u v | _ => false end.

Definition isRevoke (u : DOM.ObjectURL) (e : Effect) : bool :=
  match e with RevokeObjectURL v => Nat.eqb u v | _ => false end.

(** A request sent to the remote service. *)
Definition isRequest (e : Effect) : bool :=
  match e with
  | Client (Service.Network _) => true
  | _ => false
  end.

(** How many effects satisfying [p] a trace has. *)
Definition count (p : Effect -> bool) (t : list (nat * Effect)) : nat :=
  length (filter (fun x => p (snd x) = true) t).

(** The same, restricted to session [s]. *)
Definition countIn (s : nat) (p : Effect -> bool) (t : list (nat * Effect))
  : nat :=
  length (filter (fun x => fst x = s /\ p (snd x) = true) t).

Definition alerts (t : list (nat * Effect)) : list string :=
  omap (fun x => match snd x with Alert m => Some m | _ => None end) t.

End App.

(* ================================================================== *)
(** * src/components/PdfViewer.tsx *)
(* ================================================================== *)

Module Viewer.

(** ** Page navigation *)

(** The [useState] cells that navigation reads and writes.  [scale] is in
    percent. *)
Record State : Type := mkState {
  pageNum : Z;
  pageInput : string;
  numPages : Z;
  scale : Z;
  isLoading : bool
}.

(** The scroll container ([containerRef.current]). *)
Record Container : Type := mkContainer {
  scrollTop : Z;
  scrollHeight : Z;
  clientHeight : Z
}.

Record WheelEvent : Type := mkWheelEvent { ctrlKey : bool; deltaY : Z }.

Definition initialState : State :=
  {| pageNum := 1; pageInput := "1"; numPages := 0; scale := 100;
     isLoading := true |}.

Definition setPageNum (p : Z) (s : State) : State :=
  {| pageNum := p; pageInput := pageInput s; numPages := numPages s;
     scale := scale s; isLoading := isLoading s |}.

Definition setPageInput (t : string) (s : State) : State :=
  {| pageNum := pageNum s; pageInput := t; numPages := numPages s;
     scale := scale s; isLoading := isLoading s |}.

Definition setScale (z : Z) (s : State) : State :=
  {| pageNum := pageNum s; pageInput := pageInput s; numPages := numPages s;
     scale := z; isLoading := isLoading s |}.

Definition scrollToTop (box : Container) : Container :=
  {| scrollTop := 0; scrollHeight := scrollHeight box;
     clientHeight := clientHeight box |}.

(** The [try] branch of [loadPdf] for a document of [n] pages, followed by
    its [finally]. *)
Definition loadPdf_settled (n : Z) (s : State) : State :=
  {| pageNum := 1; pageInput := "1"; numPages := n; scale := 100;
     isLoading := false |}.

Definition changePage (delta : Z) (s : State) (box : Container)
  : State * Container :=
  let newPage := Z.min (Z.max 1 (pageNum s + delta)) (numPages s) in
  (setPageNum newPage s, scrollToTop box).

Definition handlePageSubmit (s : State) (box : Container)
  : State * Container :=
  match JS.parseInt (pageInput s) with
  | Some p =>
      if (1 <=? p)%Z && (p <=? numPages s)%Z
      then (setPageNum p s, scrollToTop box)
      else (setPageInput (JS.toString (pageNum s)) s, box)
  | None => (setPageInput (JS.toString (pageNum s)) s, box)
  end.

(** [handleZoom] and the zoom branch of [onWheel], with the scale in
    percent: a step of [0.1] is [10], the bounds are [50] and [300]. *)
Definition handleZoom (delta : Z) (s : State) : State :=
  setScale (Z.min (Z.max 50 (scale s + delta)) 300) s.

(** [onWheel] as registered by the render [r]: the guards read the values
    [r] closed over, the updaters [prev => prev + 1] and [prev => prev - 1]
    act on the current state [s]. *)
Definition onWheel (r : State) (e : WheelEvent) (s : State) (box : Container)
  : State * Container :=
  if ctrlKey e then
    if (deltaY e <? 0)%Z
    then (setScale (Z.min (scale s + 10) 300) s, box)
    else (setScale (Z.max (scale s - 10) 50) s, box)
  else if isLoading r then (s, box)
  else
    let isAtTop := (scrollTop box <=? 0)%Z in
    let isAtBottom :=
      (Z.abs (scrollHeight box - clientHeight box - scrollTop box) <=? 1)%Z in
    if (0 <? deltaY e)%Z && isAtBottom then
      if (pageNum r <? numPages r)%Z
      then (setPageNum (pageNum s + 1) s, scrollToTop box)
      else (s, box)
    else if (deltaY e <? 0)%Z && isAtTop then
      if (1 <? pageNum r)%Z
      then (setPageNum (pageNum s - 1) s, scrollToTop box)
      else (s, box)
    else (s, box).

(** The effect that keeps the input in step with the page:
    [useEffect(() => setPageInput(pageNum.toString()), [pageNum])]. *)
Definition syncInput (before after : State) : State :=
  if Z.eqb (pageNum before) (pageNum after) then after
  else setPageInput (JS.toString (pageNum after)) after.

Inductive Event : Type :=
| DocumentLoaded (n : Z)
| ClickPrevious
| ClickNext
| TypePage (t : string)
| SubmitPage
| Wheel (e : WheelEvent)
| ClickZoom (delta : Z).

(** Which events the page can deliver: the previous button is
    [disabled={pageNum <= 1}], the next button
    [disabled={pageNum >= numPages}]; a document that opens has at least
    one page. *)
Definition enabled (ev : Event) (s : State) : bool :=
  match ev with
  | DocumentLoaded n => (1 <=? n)%Z
  | ClickPrevious => negb (pageNum s <=? 1)%Z
  | ClickNext => negb (numPages s <=? pageNum s)%Z
  | _ => true
  end.

(** One event, handled by the listeners in place.  The handlers of the
    buttons, of the form and of the text input are props, which React
    replaces when it commits a render: they are those of the state [s].
    The wheel listener is added to the container by a passive effect
    ([useEffect], lines 108 to 159): the one in place was registered by the
    effect of the render [r]. *)
Definition handle (r : State) (ev : Event) (s : State) (box : Container)
  : State * Container :=
  match ev with
  | DocumentLoaded n => (loadPdf_settled n s, box)
  | ClickPrevious => changePage (-1) s box
  | ClickNext => changePage 1 s box
  | TypePage t => (setPageInput t s, box)
  | SubmitPage => handlePageSubmit s box
  | Wheel e => onWheel r e s box
  | ClickZoom delta => (handleZoom delta s, box)
  end.

(** One event that arrives after the passive effects of the last render
    have run, followed by the render it causes and by that render's
    effects: the wheel listener is the one of the current state. *)
Definition step (c : State * Container) (ev : Event) : State * Container :=
  if enabled ev (fst c) then
    let '(s', box') := handle (fst c) ev (fst c) (snd c) in
    (syncInput (fst c) s', box')
  else c.

Definition run (evs : list Event) (c : State * Container)
  : State * Container :=
  foldl step c evs.

(** [currentPage] is within [[1, pageCount]]. *)
Definition inRange (s : State) : Prop :=
  (1 <= pageNum s <= numPages s)%Z.

(** ** Events that arrive before the passive effects have run

    React commits a render before it runs the passive effects of that
    render, and an event can arrive in between; several wheel events can
    also arrive before React renders at all.  [live] is the state the
    updaters act on; [registered] is the render whose passive effects ran
    last: the wheel listener in place closes over its values, and the page
    box was last synchronised with its page. *)
Record Live : Type := mkLive {
  live : State;
  registered : State;
  container : Container
}.

Inductive LiveEvent : Type :=
| Deliver (ev : Event)
| RunEffects.

(** The viewer as it is mounted: the effects of the first render have
    run. *)
Definition mounted_on (box : Container) : Live :=
  {| live := initialState; registered := initialState; container := box |}.

Definition liveStep (l : Live) (ev : LiveEvent) : Live :=
  match ev with
  | Deliver ev =>
      if enabled ev (live l) then
        let '(s', box') := handle (registered l) ev (live l) (container l) in
        {| live := s'; registered := registered l; container := box' |}
      else l
  | RunEffects =>
      let s := syncInput (registered l) (live l) in
      {| live := s; registered := s; container := container l |}
  end.

Definition liveRun (evs : list LiveEvent) (l : Live) : Live :=
  foldl liveStep l evs.


(** ** Rendering *)

(** The arguments a call of [renderPage] closes over: page and scale. *)
Definition Params : Type := (Z * Z)%type.

(** A [RenderTask] of the rendering library. *)
Inductive Status : Type := Running | Completed | Cancelled | Failed.

Record Task : Type := mkTask { params : Params; status : Status }.

(** Where a call of [renderPage] is suspended. *)
Inductive Call : Type :=
| AwaitGetPage (p : Params)
| AwaitRender (t : nat)
| Returned.

(** What [page.render] does when another task is still drawing on the same
    canvas: the library either lets both draw or rejects the newcomer. *)
Inductive SameCanvas : Type := Allow | Reject.

Definition sameCanvasError : JS.Thrown :=
  JS.newError "Cannot use the same canvas during multiple render() operations.".

Definition cancelled : JS.Thrown :=
  JS.ErrorObject "RenderingCancelledException" "Rendering cancelled".

(** Whether [pdfDoc] and [canvasRef.current] are there,
    [renderTaskRef], the tasks created so far, the calls of [renderPage]
    made so far, the viewport the canvas was last sized for, the bitmaps
    that were painted to completion, and the console. *)
Record Render : Type := mkRender {
  mounted : bool;
  renderTaskRef : option nat;
  tasks : list Task;
  calls : list Call;
  canvas : option Params;
  painted : list Params;
  console : list (string * JS.Thrown)
}.

(** A viewer whose document is open and whose canvas is mounted, before
    the first call of [renderPage]. *)
Definition idle : Render :=
  {| mounted := true; renderTaskRef := None; tasks := []; calls := [];
     canvas := None; painted := []; console := [] |}.

(** [task.cancel()]: a task that is still drawing stops; its promise
    rejects with a [RenderingCancelledException]. *)
Definition cancel (t : nat) (ts : list Task) : list Task :=
  match ts !! t with
  | Some {| params := p; status := Running |} =>
      <[t := {| params := p; status := Cancelled |}]> ts
  | _ => ts
  end.

(** The [catch] block of [renderPage]. *)
Definition catch (err : JS.Thrown) (log : list (string * JS.Thrown))
  : list (string * JS.Thrown) :=
  if bool_decide (JS.name err = Some "RenderingCancelledException") then log
  else log ++ [("Render error:", err)].

Definition anyRunning (ts : list Task) : bool :=
  existsb (fun t => match status t with Running => true | _ => false end) ts.

(** A call of [renderPage] up to [await pdfDoc.getPage(pageNum)]: it
    returns at once when there is no document or no canvas; it cancels the
    task in [renderTaskRef], if there is one, and goes on whatever the
    cancellation throws. *)
Definition renderPage (p : Params) (r : Render) : Render :=
  if negb (mounted r) then r
  else
    let ts :=
      match renderTaskRef r with
      | Some t => cancel t (tasks r)
      | None => tasks r
      end in
    {| mounted := mounted r; renderTaskRef := renderTaskRef r; tasks := ts;
       calls := calls r ++ [AwaitGetPage p]; canvas := canvas r;
       painted := painted r; console := console r |}.

(** Call [i] resumes with its page.  Without a drawing context it returns;
    otherwise it sizes the canvas, starts a task, stores it in
    [renderTaskRef] and awaits it. *)
Definition renderPage_page (policy : SameCanvas) (i : nat) (context : bool)
  (r : Render) : Render :=
  match calls r !! i with
  | Some (AwaitGetPage p) =>
      if negb context then
        {| mounted := mounted r; renderTaskRef := renderTaskRef r;
           tasks := tasks r; calls := <[i := Returned]> (calls r);
           canvas := canvas r; painted := painted r; console := console r |}
      else
      let t := length (tasks r) in
      let st :=
        match policy with
        | Reject => if anyRunning (tasks r) then Failed else Running
        | Allow => Running
        end in
      {| mounted := mounted r; renderTaskRef := Some t;
         tasks := tasks r ++ [{| params := p; status := st |}];
         calls := <[i := match st with
                         | Failed => Returned
                         | _ => AwaitRender t
                         end]> (calls r);
         canvas := Some p;
         painted := painted r;
         console := match st with
                    | Failed => catch sameCanvasError (console r)
                    | _ => console r
                    end |}
  | _ => r
  end.

(** Call [i] resumes with a rejection of [getPage]. *)
Definition renderPage_noPage (i : nat) (err : JS.Thrown) (r : Render)
  : Render :=
  match calls r !! i with
  | Some (AwaitGetPage _) =>
      {| mounted := mounted r; renderTaskRef := renderTaskRef r; tasks := tasks r;
         calls := <[i := Returned]> (calls r); canvas := canvas r;
         painted := painted r; console := catch err (console r) |}
  | _ => r
  end.

Definition returnFrom (t : nat) (cs : list Call) : list Call :=
  map (fun c => match c with
                | AwaitRender t' => if Nat.eqb t t' then Returned else c
                | _ => c
                end) cs.

(** Task [t] draws its last operator: its bitmap is on the canvas and the
    call awaiting it returns. *)
Definition taskCompletes (t : nat) (r : Render) : Render :=
  match tasks r !! t with
  | Some {| params := p; status := Running |} =>
      {| mounted := mounted r; renderTaskRef := renderTaskRef r;
         tasks := <[t := {| params := p; status := Completed |}]> (tasks r);
         calls := returnFrom t (calls r); canvas := canvas r;
         painted := painted r ++ [p]; console := console r |}
  | _ => r
  end.

(** Task [t] rejects with [err], or, when it was cancelled, with the
    cancellation exception; the call awaiting it runs its [catch]. *)
Definition taskRejects (t : nat) (err : JS.Thrown) (r : Render) : Render :=
  match tasks r !! t with
  | Some {| params := p; status := Running |} =>
      {| mounted := mounted r; renderTaskRef := renderTaskRef r;
         tasks := <[t := {| params := p; status := Failed |}]> (tasks r);
         calls := returnFrom t (calls r); canvas := canvas r;
         painted := painted r; console := catch err (console r) |}
  | Some {| params := p; status := Cancelled |} =>
      {| mounted := mounted r; renderTaskRef := renderTaskRef r; tasks := tasks r;
         calls := returnFrom t (calls r); canvas := canvas r;
         painted := painted r; console := catch cancelled (console r) |}
  | _ => r
  end.

Inductive RenderEvent : Type :=
| RenderPage (p : Params)
| PageReady (i : nat) (context : bool)
| PageFails (i : nat) (err : JS.Thrown)
| TaskCompletes (t : nat)
| TaskRejects (t : nat) (err : JS.Thrown).

Definition renderStep (policy : SameCanvas) (r : Render) (ev : RenderEvent)
  : Render :=
  match ev with
  | RenderPage p => renderPage p r
  | PageReady i context => renderPage_page policy i context r
  | PageFails i err => renderPage_noPage i err r
  | TaskCompletes t => taskCompletes t r
  | TaskRejects t err => taskRejects t err r
  end.

Definition renderRun (policy : SameCanvas) (evs : list RenderEvent)
  (r : Render) : Render :=
  foldl (renderStep policy) r evs.

End Viewer.

(* ================================================================== *)
(** * Notions of the specification *)
(* ================================================================== *)

(** What the specification means by a page entry of digits only: one
    decimal digit or more, and nothing else.  The sources have no such
    test; it serves to say which entries are numeric. *)
Fixpoint allDigits (t : string) : bool :=
  match t with
  | EmptyString => true
  | String c r => MiniJSON.isDigit c && allDigits r
  end.

Definition digitsOnly (t : string) : bool :=
  negb (String.eqb t "") && allDigits t.

(* ================================================================== *)
(** * What holds of every configuration the page can reach *)

Record Inv (c : App.Config) : Prop := mkInv {
  (* every effect is recorded in a session that has started *)
  inv_tags : Forall (fun x => fst x <= App.minted c) (App.trace c);
  (* the URL on display is the one minted last *)
  inv_url : forall u, App.pdfUrl (App.ui c) = Some u -> u = App.minted c /\ 1 <= u;
  inv_created : forall u,
    App.count (App.isCreate u) (App.trace c) =
      if bool_decide (1 <= u <= App.minted c) then 1 else 0;
  inv_revoked : forall u,
    App.count (App.isRevoke u) (App.trace c) =
      if bool_decide (1 <= u <= App.minted c /\ App.pdfUrl (App.ui c) <> Some u)
      then 1 else 0;
  (* [isTranslating] is set exactly while a translation is in flight *)
  inv_flag :
    (App.translations c = [] /\ App.isTranslating (App.ui c) = false) \/
    (exists d, App.translations c = [d] /\ App.isTranslating (App.ui c) = true);
  inv_lang : App.translations c <> [] -> App.language (App.ui c) = App.en;
  inv_analyze : forall s,
    App.countIn s App.isAnalyze (App.trace c) =
      if bool_decide (1 <= s <= App.minted c) then 1 else 0;
  inv_translate : forall s,
    App.countIn s App.isTranslate (App.trace c) <=
      App.countIn s App.isTranslationUnused (App.trace c) + 1;
  inv_fresh :
    is_Some (App.pdfUrl (App.ui c)) -> App.translations c = [] ->
    truthyData (App.translatedData (App.ui c)) = false ->
    App.countIn (App.minted c) App.isTranslate (App.trace c) <=
      App.countIn (App.minted c) App.isTranslationUnused (App.trace c)
}.

(** Effects that none of the observations counts. *)
Definition neutral (e : App.Effect) : Prop :=
  (forall u, App.isCreate u e = false) /\ (forall u, App.isRevoke u e = false) /\
  App.isAnalyze e = false /\ App.isTranslate e = false /\
  App.isTranslationUnused e = false.


(* ================================================================== *)
(** * Concrete inputs *)
(* ================================================================== *)

Module Examples.

Definition env : Service.Env := {| Service.API_KEY := Some "secret" |}.
Definition noKey : Service.Env := {| Service.API_KEY := None |}.

Definition paper : DOM.File :=
  {| DOM.name := "paper.pdf"; DOM.type := "application/pdf" |}.
Definition notes : DOM.File :=
  {| DOM.name := "notes.txt"; DOM.type := "text/plain" |}.

Definition dataURL : string := "data:application/pdf;base64,JVBERi0=".

Definition field (k v : string) : string :=
  MiniJSON.quote k ++ ":" ++ v.

(** A response text with the five fields. *)
Definition fullText : string :=
  "{" ++ field "problemSolved" (MiniJSON.quote "p") ++ "," ++
         field "innovations" ("[" ++ MiniJSON.quote "i" ++ "]") ++ "," ++
         field "comparisonMethods" "[]" ++ "," ++
         field "limitations" "[]" ++ "," ++
         field "summary" (MiniJSON.quote "s") ++ "}".

Definition fullRecord : json :=
  JObject [("problemSolved", JString "p");
           ("innovations", JArray [JString "i"]);
           ("comparisonMethods", JArray []);
           ("limitations", JArray []);
           ("summary", JString "s")].

(** A response text that is JSON but has only one of the five fields. *)
Definition partialText : string :=
  "{" ++ field "summary" (MiniJSON.quote "s") ++ "}".

Definition partialRecord : json := JObject [("summary", JString "s")].

Definition answers (t : string) : Service.AnalyzeIO :=
  {| Service.reader := inr dataURL; Service.generated := inr (Some t) |}.

(** The remote call throws an error whose message mentions the key. *)
Definition keyRejected : JS.Thrown :=
  JS.newError "API Key not found. Please pass a valid API key.".

Definition failsUpstream : Service.AnalyzeIO :=
  {| Service.reader := inr dataURL; Service.generated := inl keyRejected |}.

Definition timeout : JS.Thrown := JS.newError "Request timed out".

(** Select a paper, let the analysis succeed, toggle to Chinese, let the
    translation fail, toggle again. *)
Definition retry : list App.Event :=
  [App.DropFiles [paper];
   App.AnalysisSettles 0 (answers fullText);
   App.ClickLanguage App.zh;
   App.TranslationSettles 0 (inl timeout);
   App.ClickLanguage App.zh].

(** Select a paper, let the analysis succeed, toggle to Chinese, let the
    translation succeed, toggle back. *)
Definition translated : list App.Event :=
  [App.DropFiles [paper];
   App.AnalysisSettles 0 (answers fullText);
   App.ClickLanguage App.zh;
   App.TranslationSettles 0 (inr (Some fullText));
   App.ClickLanguage App.en].

(** The same, but the translation resolves to the JSON text [null]; then
    toggle to Chinese once more. *)
Definition translatedToNull : list App.Event :=
  [App.DropFiles [paper];
   App.AnalysisSettles 0 (answers fullText);
   App.ClickLanguage App.zh;
   App.TranslationSettles 0 (inr (Some "null"));
   App.ClickLanguage App.en;
   App.ClickLanguage App.zh].

(** Select a paper, let the analysis succeed, toggle to Chinese: the
    translation is in flight. *)
Definition translating : list App.Event :=
  [App.DropFiles [paper];
   App.AnalysisSettles 0 (answers fullText);
   App.ClickLanguage App.zh].

(** A scroll container whose content fits: it is at its top and at its
    bottom at once. *)
Definition fits : Viewer.Container :=
  {| Viewer.scrollTop := 0; Viewer.scrollHeight := 500;
     Viewer.clientHeight := 500 |}.

Definition wheelDown : Viewer.WheelEvent :=
  {| Viewer.ctrlKey := false; Viewer.deltaY := 100 |}.

(** A document of three pages is open on page 1; the user types [2abc]
    into the page box and submits. *)
Definition typed2abc : list Viewer.Event :=
  [Viewer.DocumentLoaded 3; Viewer.TypePage "2abc"; Viewer.SubmitPage].

Definition firstRender : Viewer.Params := (1, 100)%Z.
Definition secondRender : Viewer.Params := (2, 100)%Z.

(** [renderPage] is called a second time while the first call still awaits
    its page; then both pages arrive and both tasks run to their end. *)
Definition overlapping : list Viewer.RenderEvent :=
  [Viewer.RenderPage firstRender; Viewer.RenderPage secondRender;
   Viewer.PageReady 0 true; Viewer.PageReady 1 true;
   Viewer.TaskCompletes 0; Viewer.TaskCompletes 1].

End Examples.


From Stdlib Require DecimalZ DecimalPos.

(* ================================================================== *)
(** * Further notions used by the facts *)
(* ================================================================== *)

(** A text without a comma. *)
Fixpoint noComma (s : string) : bool :=
  match s with
  | EmptyString => true
  | String c r => negb (Ascii.eqb c ",") && noComma r
  end.

Definition isLogged (e : Service.Effect) : bool :=
  match e with Service.ConsoleError _ _ => true | _ => false end.

(** The four shapes [setState] is ever called with: idle, loading, failed
    and ready. *)
Definition wellShaped (a : AnalysisState) : bool :=
  match isLoading a, error a, data a with
  | _, None, None => true
  | false, Some _, None => true
  | false, None, Some _ => true
  | _, _, _ => false
  end.

(** What holds of the cells of every configuration the page can reach. *)
Record Shape (c : App.Config) : Prop := mkShape {
  shape_state : wellShaped (App.state (App.ui c)) = true;
  shape_name :
    App.pdfUrl (App.ui c) = None <-> App.fileName (App.ui c) = None;
  shape_landing :
    App.pdfUrl (App.ui c) = None -> isLoading (App.state (App.ui c)) = false;
  shape_loading :
    isLoading (App.state (App.ui c)) = true -> App.analyses c <> []
}.

(** What holds of every configuration reached without a credential. *)
Record Keyless (c : App.Config) : Prop := mkKeyless {
  keyless_requests : App.count App.isRequest (App.trace c) = 0;
  keyless_translate : App.count App.isTranslate (App.trace c) = 0;
  keyless_data : data (App.state (App.ui c)) = None;
  keyless_translated : App.translatedData (App.ui c) = None;
  keyless_translations : App.translations c = []
}.

(** A choice made in the file dialog. *)
Definition isPicker (ev : App.Event) : bool :=
  match ev with App.ChangeFiles _ => true | _ => false end.

(** A call of [analyzePaper] with a file whose type is not
    [application/pdf]. *)
Definition isAnalyzeOfOther (e : App.Effect) : bool :=
  match e with
  | App.Invoke (App.analyzePaper file) =>
      negb (String.eqb (DOM.type file) "application/pdf")
  | _ => false
  end.

(** The value of a decimal numeral read from the left, [acc] being the
    value of the digits read so far. *)
Fixpoint uintValue (d : Decimal.uint) (acc : Z) : Z :=
  match d with
  | Decimal.Nil => acc
  | Decimal.D0 l => uintValue l (10 * acc + 0)
  | Decimal.D1 l => uintValue l (10 * acc + 1)
  | Decimal.D2 l => uintValue l (10 * acc + 2)
  | Decimal.D3 l => uintValue l (10 * acc + 3)
  | Decimal.D4 l => uintValue l (10 * acc + 4)
  | Decimal.D5 l => uintValue l (10 * acc + 5)
  | Decimal.D6 l => uintValue l (10 * acc + 6)
  | Decimal.D7 l => uintValue l (10 * acc + 7)
  | Decimal.D8 l => uintValue l (10 * acc + 8)
  | Decimal.D9 l => uintValue l (10 * acc + 9)
  end%Z.

(** What [JS.parseInt] does once white space and sign are read. *)
Definition afterSign (s2 : string) : option Z :=
  let '(radix, s3) :=
    match s2 with
    | String "0" (String "x" r) => (16%Z, r)
    | String "0" (String "X" r) => (16%Z, r)
    | _ => (10%Z, s2)
    end in
  JS.digits radix s3 None.

(* ================================================================== *)
(** * src/components/PdfViewer.tsx: opening the document *)
(* ================================================================== *)

Module Loading.

(** [loadPdf] up to [await loadingTask.promise]. *)
Definition loadPdf (s : Viewer.State) : Viewer.State :=
  {| Viewer.pageNum := Viewer.pageNum s;
     Viewer.pageInput := Viewer.pageInput s;
     Viewer.numPages := Viewer.numPages s;
     Viewer.scale := Viewer.scale s;
     Viewer.isLoading := true |}.

(** The promise rejects: the [catch] block logs, the [finally] block clears
    the flag; nothing else is written. *)
Definition loadPdf_rejected (err : JS.Thrown) (s : Viewer.State)
  : Viewer.State * list (string * JS.Thrown) :=
  ({| Viewer.pageNum := Viewer.pageNum s;
      Viewer.pageInput := Viewer.pageInput s;
      Viewer.numPages := Viewer.numPages s;
      Viewer.scale := Viewer.scale s;
      Viewer.isLoading := false |},
   [("Error loading PDF:", err)]).

End Loading.

Definition isDocumentLoaded (ev : Viewer.Event) : bool :=
  match ev with Viewer.DocumentLoaded _ => true | _ => false end.

(** The scale is within 50% and 300%. *)
Definition scaleInBounds (s : Viewer.State) : Prop :=
  (50 <= Viewer.scale s <= 300)%Z.

Definition isAtTop (box : Viewer.Container) : bool :=
  (Viewer.scrollTop box <=? 0)%Z.

Definition isAtBottom (box : Viewer.Container) : bool :=
  (Z.abs (Viewer.scrollHeight box - Viewer.clientHeight box -
          Viewer.scrollTop box) <=? 1)%Z.

(** ** Properties of a rendering state *)






(** A task that is no longer drawing. *)
Definition isSettled (t : Viewer.Task) : bool :=
  match Viewer.status t with Viewer.Running => false | _ => true end.

Module MoreExamples.

Definition readerFailed : Service.AnalyzeIO :=
  {| Service.reader := inl (JS.OtherValue None);
     Service.generated := inr (Some Examples.fullText) |}.

Definition unreadable : JS.Thrown := JS.newError "Invalid PDF structure.".

(** The viewer after its document failed to open. *)
Definition closed : Viewer.State :=
  (Loading.loadPdf_rejected unreadable
     (Loading.loadPdf Viewer.initialState)).1.

Definition wheelUp : Viewer.WheelEvent :=
  {| Viewer.ctrlKey := false; Viewer.deltaY := -100 |}.

Definition zoomWheel : Viewer.WheelEvent :=
  {| Viewer.ctrlKey := true; Viewer.deltaY := -100 |}.

(** A container scrolled to the middle of a long page. *)
Definition midway : Viewer.Container :=
  {| Viewer.scrollTop := 200; Viewer.scrollHeight := 1500;
     Viewer.clientHeight := 500 |}.

(** Everything the toolbar and the wheel offer, tried on a viewer. *)
Definition fiddling : list Viewer.Event :=
  [Viewer.ClickNext; Viewer.ClickPrevious; Viewer.TypePage "3";
   Viewer.SubmitPage; Viewer.Wheel Examples.wheelDown; Viewer.Wheel wheelUp;
   Viewer.ClickZoom 10].

(** A document of three pages is open on page 1, the container scrolled
    to the middle of the page. *)
Definition opened : Viewer.State * Viewer.Container :=
  Viewer.run [Viewer.DocumentLoaded 3] (Viewer.initialState, midway).

(** The same, with [2] typed into the page box. *)
Definition typed2 : Viewer.State * Viewer.Container :=
  Viewer.run [Viewer.DocumentLoaded 3; Viewer.TypePage "2"]
    (Viewer.initialState, midway).

(** A text file is dropped, then a paper. *)
Definition twoDrops : list App.Event :=
  [App.DropFiles [Examples.notes]; App.DropFiles [Examples.paper]].

(** A translation is asked for and the service answers [null]. *)
Definition answeredNull : list App.Event :=
  Examples.translating ++ [App.TranslationSettles 0 (inr (Some "null"))].

(** A paper was dropped and its analysis is in flight. *)
Definition analysing : list App.Event := [App.DropFiles [Examples.paper]].

(** What follows a second call of [renderPage] that found the first task
    drawing: the second page arrives, the first task rejects, the second
    task runs to its end. *)
Definition superseded : list Viewer.RenderEvent :=
  [Viewer.PageReady 1 true; Viewer.TaskRejects 0 Viewer.cancelled;
   Viewer.TaskCompletes 1].

(** A first call whose task is drawing. *)
Definition drawing : Viewer.Render :=
  Viewer.renderRun Viewer.Reject
    [Viewer.RenderPage Examples.firstRender; Viewer.PageReady 0 true]
    Viewer.idle.

End MoreExamples.


(* ================================================================== *)
(** * Facts about the analysis client *)
(* ================================================================== *)

Local Open Scope list_scope.

Section ClientFacts.
Context `{JsonRuntime}.

Lemma readResponse_nonempty (t : string) :
  JS.truthy (Some t) = true -> Service.readResponse (Some t) = JSON_parse t.
Proof. unfold Service.readResponse. by intros ->. Qed.

(** C6.  Without a credential ([process.env.API_KEY] undefined or empty)
    [analyzePaper] and [translateAnalysis] reject at their first statement
    with the missing-key error, and leave no effect behind: no request is
    made, so no byte of the document leaves the page. *)
Theorem missing_credential_rejects_before_any_request
  (env : Service.Env) (file : DOM.File) (aio : Service.AnalyzeIO)
  (d : PaperAnalysis) (tio : Service.TranslateIO) :
  JS.truthy (Service.API_KEY env) = false ->
  Service.analyzePaper env file aio =
    (Service.Rejected Service.MissingCredential
       (JS.newError "API Key is missing. Please check your environment configuration."),
     []) /\
  Service.translateAnalysis env d tio =
    (Service.Rejected Service.MissingCredential
       (JS.newError "API Key is missing."), []).
Proof.
  intros Hkey. unfold Service.analyzePaper, Service.translateAnalysis.
  by rewrite Hkey.
Qed.

(** C5, as the code has it.  With a credential, a readable file and a
    non-empty answer, the outcome of [analyzePaper] is decided by
    [JSON.parse] alone: a text that is not JSON rejects with the thrown
    [SyntaxError], every text that parses resolves to the parsed value as
    it is, whatever fields it has.  The same holds of [translateAnalysis].
    The five-field schema, with all five fields required, is what both
    requests carry as [responseSchema]. *)
Theorem response_is_parsed_not_checked
  (env : Service.Env) (file : DOM.File) (aio : Service.AnalyzeIO)
  (d : PaperAnalysis) (t : string) :
  JS.truthy (Service.API_KEY env) = true ->
  JS.truthy (Some t) = true ->
  (forall dataUrl, Service.reader aio = inr dataUrl ->
     Service.generated aio = inr (Some t) ->
     (Service.analyzePaper env file aio).1 =
       match JSON_parse t with
       | inl err => Service.Rejected Service.SchemaViolation err
       | inr v => Service.Resolved v
       end) /\
  (Service.translateAnalysis env d (inr (Some t))).1 =
    match JSON_parse t with
    | inl err => Service.Rejected Service.SchemaViolation err
    | inr v => Service.Resolved v
    end /\
  (forall key b64,
     Service.responseSchema (Service.config (Service.analyzeRequest key b64)) =
       Service.analysisSchema) /\
  (forall key,
     Service.responseSchema (Service.config (Service.translateRequest key d)) =
       Service.analysisSchema) /\
  (exists props, Service.analysisSchema = Service.OBJECT props requiredFields /\
                 map fst props = requiredFields).
Proof.
  intros Hkey Ht. repeat split.
  - intros dataUrl Hr Hg. unfold Service.analyzePaper.
    rewrite Hkey, Hr, Hg. cbn [negb Service.processFileToBase64].
    rewrite readResponse_nonempty, Ht by done. by destruct (JSON_parse t).
  - unfold Service.translateAnalysis.
    rewrite Hkey. cbn [negb].
    rewrite readResponse_nonempty, Ht by done. by destruct (JSON_parse t).
  - by eexists.
Qed.

(** C10.  [translateAnalysis] takes the record and nothing else.  The
    requests it makes are none (no credential) or the single request
    whose only part is the fixed prompt followed by [JSON.stringify(data)];
    the prompt names simplified Chinese as the language to translate into.
    The language toggle of the controller has the two values [en] and
    [zh]. *)
Theorem translation_target_is_fixed
  (env : Service.Env) (d : PaperAnalysis) (tio : Service.TranslateIO) :
  Service.networkOf (Service.translateAnalysis env d tio).2 =
    (if JS.truthy (Service.API_KEY env)
     then [Service.translateRequest (default "" (Service.API_KEY env)) d]
     else []) /\
  (forall key,
     Service.parts (Service.translateRequest key d) =
       [Service.text (Service.translatePrompt ++ JSON_stringify d)%string]) /\
  JS.includes Service.translatePrompt "into simplified Chinese" = true /\
  (forall l : App.Language, l = App.en \/ l = App.zh).
Proof.
  repeat split.
  - unfold Service.translateAnalysis.
    destruct (JS.truthy (Service.API_KEY env)); simpl; [|done].
    destruct tio as [err|t]; [done|].
    by destruct (Service.readResponse t).
  - intros []; auto.
Qed.

End ClientFacts.

Section ClientExamples.
Existing Instance MiniJSON.runtime.

(** [missing_credential_rejects_before_any_request] at a concrete input: no
    [API_KEY] in the environment. *)
Lemma missing_credential_witness :
JS.truthy (Service.API_KEY Examples.noKey) = false /\
Service.analyzePaper Examples.noKey Examples.paper
    (Examples.answers Examples.fullText) =
  (Service.Rejected Service.MissingCredential
     (JS.newError "API Key is missing. Please check your environment configuration."),
   []) /\
Service.translateAnalysis Examples.noKey Examples.fullRecord
    (inr (Some Examples.fullText)) =
  (Service.Rejected Service.MissingCredential
     (JS.newError "API Key is missing."), []).
Proof.
split; [reflexivity|].
apply (missing_credential_rejects_before_any_request
         Examples.noKey Examples.paper (Examples.answers Examples.fullText)
         Examples.fullRecord (inr (Some Examples.fullText))).
reflexivity.
Defined.

(** C5 as stated fails: the answer is JSON with one of the five fields, and
  both operations resolve to it instead of rejecting. *)
Lemma partial_record_is_returned :
hasAllFields Examples.partialRecord = false /\
(Service.analyzePaper Examples.env Examples.paper
   (Examples.answers Examples.partialText)).1 =
  Service.Resolved Examples.partialRecord /\
(Service.translateAnalysis Examples.env Examples.fullRecord
   (inr (Some Examples.partialText))).1 =
  Service.Resolved Examples.partialRecord /\
~ (exists err,
     (Service.analyzePaper Examples.env Examples.paper
        (Examples.answers Examples.partialText)).1 =
       Service.Rejected Service.SchemaViolation err).
Proof.
repeat split; try reflexivity.
intros [err Herr]. vm_compute in Herr. discriminate Herr.
Qed.

(** [response_is_parsed_not_checked] at a concrete input: the answer with
    one field. *)
Lemma response_is_parsed_witness :
(Service.analyzePaper Examples.env Examples.paper
   (Examples.answers Examples.partialText)).1 =
  match JSON_parse Examples.partialText with
  | inl err => Service.Rejected Service.SchemaViolation err
  | inr v => Service.Resolved v
  end.
Proof.
apply (response_is_parsed_not_checked Examples.env Examples.paper
         (Examples.answers Examples.partialText) Examples.fullRecord
         Examples.partialText eq_refl eq_refl)
  with (dataUrl := Examples.dataURL); reflexivity.
Defined.

End ClientExamples.


(* ================================================================== *)
(** * Facts about the controller *)
(* ================================================================== *)

Local Open Scope list_scope.

Section Counting.

Implicit Types (t : list (nat * App.Effect)) (p : App.Effect -> bool).

Lemma countIn_app s p t1 t2 :
  App.countIn s p (t1 ++ t2) = App.countIn s p t1 + App.countIn s p t2.
Proof. unfold App.countIn. by rewrite filter_app, length_app. Qed.

Lemma countIn_one s p n e :
  App.countIn s p [(n, e)] = if decide (n = s /\ p e = true) then 1 else 0.
Proof.
  unfold App.countIn. rewrite filter_cons, filter_nil. simpl.
  by destruct (decide (n = s /\ p e = true)).
Qed.

Lemma count_app p t1 t2 :
  App.count p (t1 ++ t2) = App.count p t1 + App.count p t2.
Proof. unfold App.count. by rewrite filter_app, length_app. Qed.

Lemma count_one p n e : App.count p [(n, e)] = if p e then 1 else 0.
Proof.
  unfold App.count. rewrite filter_cons, filter_nil. simpl.
  destruct (p e); by case_decide.
Qed.

Lemma countIn_clients s p m (es : list Service.Effect) :
  (forall e, p (App.Client e) = false) ->
  App.countIn s p (map (fun e => (m, App.Client e)) es) = 0.
Proof.
  intros Hp. induction es as [|e es IH]; [done|].
  change (map _ (e :: es))
    with ([(m, App.Client e)] ++ map (fun e => (m, App.Client e)) es)%list.
  rewrite countIn_app, countIn_one, IH, Hp. by case_decide as Hd; [destruct Hd|].
Qed.

Lemma count_clients p m (es : list Service.Effect) :
  (forall e, p (App.Client e) = false) ->
  App.count p (map (fun e => (m, App.Client e)) es) = 0.
Proof.
  intros Hp. induction es as [|e es IH]; [done|].
  change (map _ (e :: es))
    with ([(m, App.Client e)] ++ map (fun e => (m, App.Client e)) es)%list.
  by rewrite count_app, count_one, IH, Hp.
Qed.

(** A session that has not started yet has no effects. *)
Lemma countIn_future s p t m :
  Forall (fun x => fst x <= m) t -> m < s -> App.countIn s p t = 0.
Proof.
  intros Ht Hs. unfold App.countIn.
  induction Ht as [|x t Hx Ht IH]; [done|].
  rewrite filter_cons. case_decide as Hd; [destruct Hd; lia | exact IH].
Qed.

Lemma trace_emitAll es c :
  App.trace (App.emitAll (map App.Client es) c) =
    App.trace c ++ map (fun e => (App.minted c, App.Client e)) es /\
  App.ui (App.emitAll (map App.Client es) c) = App.ui c /\
  App.minted (App.emitAll (map App.Client es) c) = App.minted c /\
  App.analyses (App.emitAll (map App.Client es) c) = App.analyses c /\
  App.translations (App.emitAll (map App.Client es) c) = App.translations c.
Proof.
  revert c. induction es as [|e es IH]; intros c.
  - simpl. by rewrite app_nil_r.
  - simpl. destruct (IH (App.emit (App.Client e) c)) as (-> & -> & -> & -> & ->).
    simpl. by rewrite <- app_assoc.
Qed.

End Counting.

Lemma Inv_initial : Inv App.initial.
Proof.
  split; simpl; try done.
  - intros u. case_bool_decide; [lia | done].
  - intros u. case_bool_decide; [lia | done].
  - by left.
  - intros s. case_bool_decide; [lia | done].
  - intros s. unfold App.countIn. simpl. lia.
Qed.

Ltac count_simpl :=
  repeat first
    [ rewrite countIn_app | rewrite count_app
    | rewrite countIn_one | rewrite count_one
    | rewrite countIn_clients by done | rewrite count_clients by done ];
  simpl.

Ltac some_neq :=
  repeat match goal with
  | H : Some ?a <> Some ?b |- _ =>
      assert (a <> b) by congruence; clear H
  | H : ~ (Some ?a <> Some ?b) |- _ =>
      assert (a = b) by (destruct (decide (a = b)); [done|];
                         exfalso; apply H; congruence); clear H
  end.

Ltac split_hyps :=
  repeat match goal with H : _ /\ _ |- _ => destruct H end.

Ltac decide_all :=
  repeat case_decide; repeat case_bool_decide; simplify_eq;
  split_hyps; some_neq; try lia; try done;
  try (exfalso;
       match goal with
       | H : ~ (_ /\ _) |- _ =>
           apply H; repeat split; some_neq; first [lia | done | congruence]
       end).

Lemma Inv_select c file :
  Inv c -> App.pdfUrl (App.ui c) = None ->
  Inv (App.commit c (App.handleFileSelect file c)).
Proof.
  intros [Htags Hurl Hcre Hrev Hflag Hlang Han Htr Hfresh] Hnone.
  unfold App.commit, App.handleFileSelect. rewrite Hnone. simpl.
  split; simpl.
  - rewrite !Forall_app. repeat split.
    + eapply Forall_impl; [exact Htags|]. simpl. intros; lia.
    + repeat constructor.
    + repeat constructor.
  - intros u [= <-]. lia.
  - intros u. count_simpl. rewrite Hcre.
    destruct (Nat.eqb_spec u (S (App.minted c))); decide_all.
  - intros u. count_simpl. rewrite Hrev, Hnone. decide_all.
  - exact Hflag.
  - done.
  - intros s. count_simpl. rewrite Han. decide_all.
  - intros s. count_simpl. specialize (Htr s). decide_all.
  - intros _ _ _. count_simpl.
    rewrite (countIn_future _ App.isTranslate _ _ Htags) by lia.
    lia.
Qed.

Lemma Inv_reset c :
  Inv c -> is_Some (App.pdfUrl (App.ui c)) ->
  Inv (App.commit c (App.handleReset c)).
Proof.
  intros [Htags Hurl Hcre Hrev Hflag Hlang Han Htr Hfresh] [u Hu].
  unfold App.commit, App.handleReset. rewrite Hu. simpl.
  destruct (Hurl u Hu) as [-> Hpos].
  split; simpl.
  - rewrite Forall_app. split; [exact Htags | by repeat constructor].
  - done.
  - intros u. count_simpl. rewrite Hcre. lia.
  - intros u. count_simpl. rewrite Hrev, Hu.
    destruct (Nat.eqb_spec u (App.minted c)); decide_all.
  - exact Hflag.
  - done.
  - intros s. count_simpl. rewrite Han. decide_all.
  - intros s. count_simpl. specialize (Htr s). decide_all.
  - intros [? [=]].
Qed.

Lemma Inv_emit c e : neutral e -> Inv c -> Inv (App.emit e c).
Proof.
  intros (Hc & Hr & Ha & Ht & Hu)
    [Htags Hurl Hcre Hrev Hflag Hlang Han Htr Hfresh].
  split; simpl; try done.
  - rewrite Forall_app. split; [exact Htags | by repeat constructor].
  - intros u. count_simpl. rewrite Hcre, Hc. lia.
  - intros u. count_simpl. rewrite Hrev, Hr. lia.
  - intros s. count_simpl. rewrite Han, Ha. decide_all.
  - intros s. count_simpl. rewrite Ht, Hu. specialize (Htr s). decide_all.
  - intros H1 H2 H3. count_simpl. rewrite Ht, Hu.
    specialize (Hfresh H1 H2 H3). decide_all.
Qed.

Lemma commit_same_url c c' :
  App.pdfUrl (App.ui c') = App.pdfUrl (App.ui c) -> App.commit c c' = c'.
Proof.
  intros Heq. unfold App.commit. destruct (App.pdfUrl (App.ui c)); [|done].
  by rewrite decide_True.
Qed.

Lemma handleLanguageToggle_cases targetLang c :
  App.handleLanguageToggle targetLang c = c \/
  App.handleLanguageToggle targetLang c =
    App.setUi (App.setLanguage targetLang) c \/
  exists d,
    targetLang = App.zh /\ App.language (App.ui c) = App.en /\
    truthyData (App.translatedData (App.ui c)) = false /\
    data (App.state (App.ui c)) = Some d /\
    App.handleLanguageToggle targetLang c =
      App.startTranslation d (App.setUi (App.setIsTranslating true) c).
Proof.
  unfold App.handleLanguageToggle.
  case_decide as Hsame; [by left|].
  destruct (data (App.state (App.ui c))) as [d|] eqn:Hd; [|by right; left].
  destruct (bool_decide (targetLang = App.zh)) eqn:Hzh; [|by right; left].
  destruct (truthyData (App.translatedData (App.ui c))) eqn:Ht;
    [by right; left|].
  destruct (JSON.truthy d); [|by right; left].
  apply bool_decide_eq_true in Hzh as ->.
  right; right. exists d. repeat split; try done.
  by destruct (App.language (App.ui c)).
Qed.

Lemma Inv_setLanguage c l :
  Inv c -> App.translations c = [] -> Inv (App.setUi (App.setLanguage l) c).
Proof.
  intros [Htags Hurl Hcre Hrev Hflag Hlang Han Htr Hfresh] Htrans.
  split; simpl; try done.
Qed.

Lemma Inv_toggle c targetLang :
  Inv c -> is_Some (App.pdfUrl (App.ui c)) ->
  App.isTranslating (App.ui c) = false ->
  Inv (App.commit c (App.handleLanguageToggle targetLang c)).
Proof.
  intros HI Hshown Hgate.
  assert (Htrans : App.translations c = []).
  { destruct (inv_flag c HI) as [[? _]|(d & _ & Ht)]; [done | congruence]. }
  destruct (handleLanguageToggle_cases targetLang c)
    as [-> | [-> | (d & -> & Hen & Ht & Hd & ->)]].
  - by rewrite commit_same_url.
  - rewrite commit_same_url by done. by apply Inv_setLanguage.
  - rewrite commit_same_url by done.
    destruct HI as [Htags Hurl Hcre Hrev Hflag Hlang Han Htr Hfresh].
    split; simpl; rewrite ?Htrans; try done.
    + rewrite Forall_app. split; [exact Htags | by repeat constructor].
    + intros u. count_simpl. rewrite Hcre. lia.
    + intros u. count_simpl. rewrite Hrev. lia.
    + right. by exists d.
    + intros s. count_simpl. rewrite Han. decide_all.
    + intros s. count_simpl. specialize (Htr s).
      case_decide as Hs; [|lia]. destruct Hs as [<- _].
      specialize (Hfresh Hshown Htrans Ht). lia.
Qed.

Lemma Inv_clients c (es : list Service.Effect) :
  Inv c -> Inv (App.emitAll (map App.Client es) c).
Proof.
  intros [Htags Hurl Hcre Hrev Hflag Hlang Han Htr Hfresh].
  destruct (trace_emitAll es c) as (Ht & Hu & Hm & Ha & Hl).
  split; rewrite ?Ht, ?Hu, ?Hm, ?Ha, ?Hl; try done.
  - rewrite Forall_app. split; [exact Htags|].
    apply Forall_forall. intros x [e [-> _]]%list_elem_of_fmap. done.
  - intros u. count_simpl. rewrite Hcre. lia.
  - intros u. count_simpl. rewrite Hrev. lia.
  - intros s. count_simpl. rewrite Han. lia.
  - intros s. count_simpl. specialize (Htr s). lia.
  - intros H1 H2 H3. count_simpl. specialize (Hfresh H1 H2 H3). lia.
Qed.

Lemma Inv_dropAnalysis c k : Inv c -> Inv (App.dropAnalysis k c).
Proof. intros []. by split. Qed.

Lemma Inv_setState c a : Inv c -> Inv (App.setUi (App.setState a) c).
Proof. intros []. by split. Qed.

Lemma Inv_fileSelect_settled c o :
  Inv c -> Inv (App.handleFileSelect_settled o c).
Proof.
  intros HI. destruct o as [d|kind err]; simpl.
  - by apply Inv_setState.
  - apply Inv_setState, Inv_emit; [by repeat split | done].
Qed.

Lemma truthyData_cell j : truthyData (cell j) = JSON.truthy j.
Proof. by destruct j. Qed.

(** Once the only translation in flight has settled, the toggle is released:
    with a truthy result the translation is cached, in every other case the
    settlement is one that leaves no translation. *)
Lemma Inv_languageToggle_settled c d o es :
  Inv c -> App.translations c !! 0 = Some d ->
  Inv (App.handleLanguageToggle_settled o
         (App.emit (App.Settled (App.translateAnalysis d) o)
            (App.emitAll (map App.Client es) (App.dropTranslation 0 c)))).
Proof.
  intros HI Hd.
  assert (Htrans : App.translations c = [d]).
  { destruct (inv_flag c HI) as [[Hn _]|(d' & Ht & _)].
    - by rewrite Hn in Hd.
    - rewrite Ht in Hd. simpl in Hd. by simplify_eq. }
  destruct HI as [Htags Hurl Hcre Hrev Hflag Hlang Han Htr Hfresh].
  destruct (trace_emitAll es (App.dropTranslation 0 c))
    as (Ht & Hu & Hm & Ha & Hl).
  unfold App.handleLanguageToggle_settled.
  destruct o as [result|kind err]; split; simpl;
    rewrite ?Ht, ?Hu, ?Hm, ?Ha, ?Hl; simpl; rewrite ?Htrans; simpl;
    try done; try (by left).
  - rewrite !Forall_app. repeat split; [exact Htags| |by repeat constructor].
    apply Forall_forall. intros x [e [-> _]]%list_elem_of_fmap. done.
  - intros u. count_simpl. rewrite Hcre. lia.
  - intros u. count_simpl. rewrite Hrev. lia.
  - intros s. count_simpl. rewrite Han. decide_all.
  - intros s. count_simpl. specialize (Htr s). decide_all.
  - intros _ _ Hfalsy. rewrite truthyData_cell in Hfalsy.
    count_simpl. rewrite Hfalsy. simpl.
    specialize (Htr (App.minted c)). decide_all.
  - rewrite !Forall_app. repeat split; [exact Htags| |by repeat constructor..].
    apply Forall_forall. intros x [e [-> _]]%list_elem_of_fmap. done.
  - intros u. count_simpl. rewrite Hcre. lia.
  - intros u. count_simpl. rewrite Hrev. lia.
  - intros s. count_simpl. rewrite Han. decide_all.
  - intros s. count_simpl. specialize (Htr s). decide_all.
  - intros _ _ _. count_simpl. specialize (Htr (App.minted c)). decide_all.
Qed.

Section Reachable.
Context `{JsonRuntime}.
Variable env : Service.Env.

Lemma Inv_step c ev : Inv c -> Inv (App.step env c ev).
Proof.
  intros HI. unfold App.step.
  destruct (App.enabled ev c) eqn:Hen; [|done].
  destruct ev as [files|files| |targetLang|k io|k io]; simpl in Hen |- *.
  - apply bool_decide_eq_true in Hen.
    unfold Upload.handleDrop. destruct files as [|file files]; simpl.
    { by rewrite commit_same_url. }
    case_match; simpl.
    + by apply Inv_select.
    + rewrite commit_same_url by done. by apply Inv_emit.
  - apply andb_true_iff in Hen as [Hen _]. apply bool_decide_eq_true in Hen.
    destruct files as [|file files]; simpl.
    { by rewrite commit_same_url. }
    by apply Inv_select.
  - apply bool_decide_eq_true in Hen. by apply Inv_reset.
  - apply andb_true_iff in Hen as [Hen Hgate].
    apply andb_true_iff in Hen as [Hshown _].
    apply bool_decide_eq_true in Hshown. apply negb_true_iff in Hgate.
    by apply Inv_toggle.
  - destruct (App.analyses c !! k) as [file|]; [|by rewrite commit_same_url].
    destruct (Service.analyzePaper env file io) as [o effects].
    rewrite commit_same_url.
    + apply Inv_fileSelect_settled, Inv_emit; [by repeat split|].
      by apply Inv_clients, Inv_dropAnalysis.
    + destruct (trace_emitAll effects (App.dropAnalysis k c))
        as (_ & Hu & _).
      destruct o; simpl; by rewrite ?Hu.
  - destruct (App.translations c !! k) as [d|] eqn:Hk;
      [|by rewrite commit_same_url].
    assert (k = 0) as ->.
    { destruct (inv_flag c HI) as [[Hn _]|(d' & Ht & _)].
      - by rewrite Hn in Hk.
      - rewrite Ht in Hk. by destruct k. }
    destruct (Service.translateAnalysis env d io) as [o effects].
    rewrite commit_same_url.
    + by eapply Inv_languageToggle_settled.
    + destruct (trace_emitAll effects (App.dropTranslation 0 c))
        as (_ & Hu & _).
      unfold App.handleLanguageToggle_settled.
      destruct o; simpl; by rewrite ?Hu.
Qed.

Lemma Inv_run evs c : Inv c -> Inv (App.run env evs c).
Proof.
  revert c. induction evs as [|ev evs IH]; intros c HI; [done|].
  simpl. by apply IH, Inv_step.
Qed.

End Reachable.


(** ** The claims about the controller *)

Lemma alerts_app t1 t2 : App.alerts (t1 ++ t2) = App.alerts t1 ++ App.alerts t2.
Proof. unfold App.alerts. apply omap_app. Qed.

Lemma alerts_clients m (es : list Service.Effect) :
  App.alerts (map (fun e => (m, App.Client e)) es) = [].
Proof. induction es as [|e es IH]; [done | exact IH]. Qed.

Section ControllerFacts.
Context `{JsonRuntime}.
Variable env : Service.Env.

(** C1, as the code has it.  In every configuration the page can reach:
    [analyzePaper] has been called exactly once in every session that has
    started (once per selected file); in every session the calls of
    [translateAnalysis] are at most one more than the calls that settled in
    that session without leaving a translation (a rejection, or a falsy
    result), so a second call is only ever made after such a settlement;
    and a click on a language button while a translation is cached leaves
    the trace and the calls in flight as they are (no call, no request) and
    makes the clicked language the active one at once. *)
Theorem calls_per_session (evs : list App.Event) :
  let c := App.run env evs App.initial in
  (forall s,
     App.countIn s App.isAnalyze (App.trace c) =
       if bool_decide (1 <= s <= App.minted c) then 1 else 0) /\
  (forall s,
     App.countIn s App.isTranslate (App.trace c) <=
       1 + App.countIn s App.isTranslationUnused (App.trace c)) /\
  (forall targetLang,
     truthyData (App.translatedData (App.ui c)) = true ->
     App.enabled (App.ClickLanguage targetLang) c = true ->
     let c' := App.step env c (App.ClickLanguage targetLang) in
     App.trace c' = App.trace c /\
     App.analyses c' = App.analyses c /\
     App.translations c' = App.translations c /\
     App.language (App.ui c') = targetLang).
Proof.
  intros c. pose proof (Inv_run env evs _ Inv_initial) as HI. fold c in HI.
  split; [exact (inv_analyze c HI)|].
  split; [intros s; pose proof (inv_translate c HI s); lia|].
  intros targetLang Ht Hen c'. subst c'. unfold App.step. rewrite Hen.
  cbn [App.handle]. unfold App.handleLanguageToggle. rewrite Ht.
  rewrite andb_false_r. simpl.
  case_decide as Hsame.
  - by rewrite commit_same_url.
  - destruct (data (App.state (App.ui c))); by rewrite commit_same_url.
Qed.

(** C3.  In every configuration the page can reach, every object URL is
    either the one on display, and then it has not been revoked, or it has
    been revoked exactly once; URLs are created one per selection and never
    twice; and the reset button, whenever it can be clicked, leaves no URL
    on display, so the one that was on display is revoked by it. *)
Theorem object_url_released_once (evs : list App.Event) (u : DOM.ObjectURL) :
  let c := App.run env evs App.initial in
  App.count (App.isCreate u) (App.trace c) =
    (if bool_decide (1 <= u <= App.minted c) then 1 else 0) /\
  App.count (App.isRevoke u) (App.trace c) =
    (if bool_decide (1 <= u <= App.minted c /\ App.pdfUrl (App.ui c) <> Some u)
     then 1 else 0) /\
  App.count (App.isRevoke u) (App.trace c) <= 1 /\
  (App.pdfUrl (App.ui c) = Some u ->
   let c' := App.step env c App.ClickReset in
   App.count (App.isRevoke u) (App.trace c) = 0 /\
   App.count (App.isRevoke u) (App.trace c') = 1 /\
   App.pdfUrl (App.ui c') = None).
Proof.
  intros c. pose proof (Inv_run env evs _ Inv_initial) as HI. fold c in HI.
  split; [exact (inv_created c HI u)|].
  split; [exact (inv_revoked c HI u)|].
  split; [rewrite (inv_revoked c HI u); case_bool_decide; lia|].
  intros Hu c'.
  pose proof (Inv_step env c App.ClickReset HI) as HI'.
  change (App.step env c App.ClickReset) with c' in HI'.
  assert (App.pdfUrl (App.ui c') = None /\ App.minted c' = App.minted c)
    as [Hnone Hm].
  { subst c'. unfold App.step, App.enabled. rewrite Hu.
    rewrite bool_decide_eq_true_2 by eauto.
    unfold App.commit, App.handleReset. by rewrite Hu. }
  destruct (inv_url c HI u Hu) as [Hcur Hpos].
  rewrite (inv_revoked c HI), (inv_revoked c' HI'), Hnone, Hm, Hu.
  repeat split; decide_all.
Qed.

(** C4.  When a translation in flight settles, [isTranslating] is cleared,
    whether it resolved or rejected.  When it rejected, the alert
    "Translation failed. Please try again." is raised, and the active
    language, the analysis state and the translation cache are what they
    were; the record on display is the primary one, [state.data]. *)
Theorem translation_failure_keeps_primary
  (evs : list App.Event) (k : nat) (io : Service.TranslateIO)
  (d : PaperAnalysis) :
  let c := App.run env evs App.initial in
  App.translations c !! k = Some d ->
  let c' := App.step env c (App.TranslationSettles k io) in
  App.isTranslating (App.ui c') = false /\
  forall kind err,
    (Service.translateAnalysis env d io).1 = Service.Rejected kind err ->
    App.language (App.ui c') = App.language (App.ui c) /\
    App.state (App.ui c') = App.state (App.ui c) /\
    App.translatedData (App.ui c') = App.translatedData (App.ui c) /\
    App.currentAnalysis (App.ui c') = data (App.state (App.ui c)) /\
    App.alerts (App.trace c') =
      App.alerts (App.trace c) ++ ["Translation failed. Please try again."].
Proof.
  intros c Hk c'. pose proof (Inv_run env evs _ Inv_initial) as HI.
  fold c in HI.
  assert (Hen : App.language (App.ui c) = App.en).
  { apply (inv_lang c HI). intros Hn. by rewrite Hn in Hk. }
  subst c'. unfold App.step, App.enabled.
  rewrite bool_decide_eq_true_2 by (by eapply lookup_lt_Some).
  unfold App.handle. rewrite Hk.
  destruct (Service.translateAnalysis env d io) as [o effects].
  destruct (trace_emitAll effects (App.dropTranslation k c))
    as (Ht & Hu & Hm & Ha & Hl).
  rewrite commit_same_url.
  2:{ unfold App.handleLanguageToggle_settled.
      destruct o; simpl; by rewrite ?Hu. }
  split.
  { unfold App.handleLanguageToggle_settled. by destruct o. }
  intros kind err [= ->]. unfold App.handleLanguageToggle_settled. simpl.
  rewrite Ht, Hu, Hm. simpl. repeat split.
  - unfold App.currentAnalysis. simpl. by rewrite Hen.
  - rewrite !alerts_app, alerts_clients. simpl. by rewrite !app_nil_r.
Qed.

(** C8, as the code has it.  When [analyzePaper] rejects, the continuation
    of [handleFileSelect] leaves the failed state whose reason is computed
    from the thrown value alone: the fixed missing-key message whenever the
    thrown value has a message containing "API Key", which is the case
    whenever the rejection is the missing-credential one; otherwise the
    message of the thrown value when it is an [Error]; otherwise the fixed
    "An unexpected error occurred.". *)
Theorem failure_reason
  (file : DOM.File) (io : Service.AnalyzeIO) (kind : Service.FailureKind)
  (err : JS.Thrown) (c : App.Config) :
  (Service.analyzePaper env file io).1 = Service.Rejected kind err ->
  let c' := App.handleFileSelect_settled (Service.Rejected kind err) c in
  App.state (App.ui c') =
    {| isLoading := false; error := Some (App.errorMessage err);
       data := None |} /\
  (kind = Service.MissingCredential ->
   App.errorMessage err = "Missing API Key. Please verify your settings.") /\
  (forall m, JS.message err = Some m -> JS.includes m "API Key" = true ->
   App.errorMessage err = "Missing API Key. Please verify your settings.") /\
  (forall m, JS.message err = Some m -> JS.includes m "API Key" = false ->
   JS.instanceofError err = true -> App.errorMessage err = m) /\
  ((forall m, JS.message err = Some m -> JS.includes m "API Key" = false) ->
   JS.instanceofError err = false ->
   App.errorMessage err = "An unexpected error occurred.").
Proof.
  intros Hrej c'. split; [done|]. split; [|repeat split].
  - intros ->. revert Hrej. unfold Service.analyzePaper.
    destruct (JS.truthy (Service.API_KEY env)); simpl.
    + destruct (Service.processFileToBase64 (Service.reader io)); [done|].
      destruct (Service.generated io) as [|t]; [done|].
      destruct (Service.readResponse t); [|done].
      by destruct (JS.truthy t).
    + by intros [= <-].
  - intros m Hm Hinc. unfold App.errorMessage. by rewrite Hm, Hinc.
  - intros m Hm Hinc Herr. unfold App.errorMessage.
    by rewrite Hm, Hinc, Herr.
  - intros Hno Herr. unfold App.errorMessage. rewrite Herr.
    destruct (JS.message err) as [m|] eqn:Hm; [|done].
    by rewrite (Hno m eq_refl).
Qed.

End ControllerFacts.


Section ControllerExamples.
Existing Instance MiniJSON.runtime.

(** C1 as stated fails: after a failed translation a second click on the
    Chinese button calls [translateAnalysis] again, for the same file and
    the same language. *)
Lemma translate_called_again_after_failure :
  let c := App.run Examples.env Examples.retry App.initial in
  App.minted c = 1 /\
  App.countIn 1 App.isTranslate (App.trace c) = 2 /\
  ~ App.countIn 1 App.isTranslate (App.trace c) <= 1.
Proof. vm_compute. repeat split. lia. Qed.

(** [calls_per_session] at a concrete input: a cached translation, and a
    click on the Chinese button. *)
Lemma calls_per_session_witness :
  let c := App.run Examples.env Examples.translated App.initial in
  truthyData (App.translatedData (App.ui c)) = true /\
  App.enabled (App.ClickLanguage App.zh) c = true /\
  let c' := App.step Examples.env c (App.ClickLanguage App.zh) in
  App.trace c' = App.trace c /\
  App.analyses c' = App.analyses c /\
  App.translations c' = App.translations c /\
  App.language (App.ui c') = App.zh.
Proof.
  split; [reflexivity|]. split; [reflexivity|].
  exact (proj2 (proj2 (calls_per_session Examples.env Examples.translated))
           App.zh eq_refl eq_refl).
Defined.

(** The scenario of the specification: one analysis, one translation, and
    no further call when the user toggles back and forth. *)
Lemma toggling_back_and_forth_calls_nothing :
  let c := App.run Examples.env
             (Examples.translated ++ [App.ClickLanguage App.zh]) App.initial in
  App.count App.isAnalyze (App.trace c) = 1 /\
  App.count App.isTranslate (App.trace c) = 1 /\
  App.language (App.ui c) = App.zh /\
  App.currentAnalysis (App.ui c) = Some Examples.fullRecord.
Proof. by vm_compute. Qed.

(** A translation that resolves to a falsy value is not taken as cached:
    the next toggle to Chinese translates again, with no failure in
    between. *)
Lemma falsy_translation_is_translated_again :
  let c := App.run Examples.env Examples.translatedToNull App.initial in
  App.countIn 1 App.isTranslate (App.trace c) = 2 /\
  App.countIn 1 App.isTranslationUnused (App.trace c) = 1 /\
  App.alerts (App.trace c) = [].
Proof. by vm_compute. Qed.

(** Without a credential the selection of a file ends in the failed state
    with the missing-key message, and no request is made. *)
Lemma selection_without_credential :
  let c := App.run Examples.noKey
             [App.DropFiles [Examples.paper];
              App.AnalysisSettles 0 (Examples.answers Examples.fullText)]
             App.initial in
  App.state (App.ui c) =
    {| isLoading := false;
       error := Some "Missing API Key. Please verify your settings.";
       data := None |} /\
  App.count App.isAnalyze (App.trace c) = 1 /\
  App.count App.isRequest (App.trace c) = 0.
Proof. by vm_compute. Qed.

(** The upload surface is not rendered while a file is on display.  Were
    [handleFileSelect] to run there, the URL on display would be revoked by
    the handler and again by the cleanup of the effect. *)
Lemma select_over_displayed_file_would_revoke_twice :
  let c := App.run Examples.env [App.DropFiles [Examples.paper]] App.initial in
  App.enabled (App.DropFiles [Examples.paper]) c = false /\
  App.enabled (App.ChangeFiles [Examples.paper]) c = false /\
  App.count (App.isRevoke 1)
    (App.trace (App.commit c (App.handleFileSelect Examples.paper c))) = 2.
Proof. by vm_compute. Qed.

(** [object_url_released_once] at a concrete input: the URL of the paper on
    display, and a reset. *)
Lemma object_url_released_once_witness :
  let c := App.run Examples.env Examples.translating App.initial in
  App.pdfUrl (App.ui c) = Some 1 /\
  let c' := App.step Examples.env c App.ClickReset in
  App.count (App.isRevoke 1) (App.trace c) = 0 /\
  App.count (App.isRevoke 1) (App.trace c') = 1 /\
  App.pdfUrl (App.ui c') = None.
Proof.
  split; [reflexivity|].
  exact (proj2 (proj2 (proj2
           (object_url_released_once Examples.env Examples.translating 1)))
           eq_refl).
Defined.

(** [translation_failure_keeps_primary] at a concrete input: the
    translation in flight times out. *)
Lemma translation_failure_witness :
  let c := App.run Examples.env Examples.translating App.initial in
  App.translations c !! 0 = Some Examples.fullRecord /\
  (Service.translateAnalysis Examples.env Examples.fullRecord
     (inl Examples.timeout)).1 =
    Service.Rejected Service.UpstreamError Examples.timeout /\
  let c' :=
    App.step Examples.env c (App.TranslationSettles 0 (inl Examples.timeout)) in
  App.isTranslating (App.ui c') = false /\
  App.language (App.ui c') = App.language (App.ui c) /\
  App.currentAnalysis (App.ui c') = data (App.state (App.ui c)).
Proof.
  split; [reflexivity|]. split; [reflexivity|].
  assert (Hk : App.translations
                 (App.run Examples.env Examples.translating App.initial) !! 0 =
               Some Examples.fullRecord) by reflexivity.
  destruct (translation_failure_keeps_primary Examples.env Examples.translating
              0 (inl Examples.timeout) Examples.fullRecord Hk)
    as [Hflag Hfail].
  destruct (Hfail Service.UpstreamError Examples.timeout eq_refl)
    as (Hlang & _ & _ & Hshown & _).
  exact (conj Hflag (conj Hlang Hshown)).
Defined.

(** C8 as stated fails: the remote call throws an error that is not the
    missing-credential one, and the reason shown is not its message. *)
Lemma upstream_failure_shown_as_missing_key :
  let r := Service.analyzePaper Examples.env Examples.paper
             Examples.failsUpstream in
  r.1 = Service.Rejected Service.UpstreamError Examples.keyRejected /\
  let c' := App.handleFileSelect_settled r.1 App.initial in
  error (App.state (App.ui c')) =
    Some "Missing API Key. Please verify your settings." /\
  error (App.state (App.ui c')) <> JS.message Examples.keyRejected.
Proof. vm_compute. repeat split. discriminate. Qed.

(** [failure_reason] at a concrete input: the remote call throws. *)
Lemma failure_reason_witness :
  (Service.analyzePaper Examples.env Examples.paper Examples.failsUpstream).1 =
    Service.Rejected Service.UpstreamError Examples.keyRejected /\
  App.state
    (App.ui (App.handleFileSelect_settled
               (Service.Rejected Service.UpstreamError Examples.keyRejected)
               App.initial)) =
    {| isLoading := false;
       error := Some (App.errorMessage Examples.keyRejected);
       data := None |}.
Proof.
  split; [reflexivity|].
  exact (proj1 (failure_reason Examples.env Examples.paper
                  Examples.failsUpstream Service.UpstreamError
                  Examples.keyRejected App.initial eq_refl)).
Defined.

(** C9, the defect.  Through the file input a file that is not a PDF is
    handed to [onFileSelect] like any other: the page enters the loading
    state, an analysis is started and nothing is reported.  Dropped on the
    surface, the same file is refused with an alert and the state is left
    as it was. *)
Theorem picker_accepts_non_pdf :
  DOM.type Examples.notes <> "application/pdf" /\
  Upload.handleChange [Examples.notes] = [Upload.onFileSelect Examples.notes] /\
  (let c := App.step Examples.env App.initial (App.ChangeFiles [Examples.notes]) in
   App.state (App.ui c) = {| isLoading := true; error := None; data := None |} /\
   App.analyses c = [Examples.notes] /\
   App.alerts (App.trace c) = []) /\
  Upload.handleDrop [Examples.notes] =
    [Upload.alert "Please upload a PDF file."] /\
  (let c := App.step Examples.env App.initial (App.DropFiles [Examples.notes]) in
   App.ui c = App.ui App.initial /\
   App.analyses c = [] /\
   App.alerts (App.trace c) = ["Please upload a PDF file."]).
Proof. vm_compute. repeat split. discriminate. Qed.

End ControllerExamples.

Section UploadFacts.
Context `{JsonRuntime}.
Variable env : Service.Env.

(** The file input hands every file to [handleFileSelect], whatever its
    type. *)
Lemma change_selects_any_file (file : DOM.File) (rest : list DOM.File)
  (c : App.Config) :
  App.enabled (App.ChangeFiles (file :: rest)) c = true ->
  let c' := App.step env c (App.ChangeFiles (file :: rest)) in
  App.state (App.ui c') = {| isLoading := true; error := None; data := None |} /\
  App.analyses c' = App.analyses c ++ [file] /\
  App.alerts (App.trace c') = App.alerts (App.trace c).
Proof.
  intros Hen c'. subst c'. unfold App.step. rewrite Hen.
  apply andb_true_iff in Hen as [Hnone _]. apply bool_decide_eq_true in Hnone.
  cbn [App.handle Upload.handleChange foldl App.perform].
  unfold App.commit, App.handleFileSelect. rewrite Hnone. simpl.
  repeat split. rewrite !alerts_app. simpl. by rewrite !app_nil_r.
Qed.

(** The drop path refuses, for every file and every configuration: a
    dropped file whose type is not the PDF one changes nothing but the list
    of alerts. *)
Lemma drop_rejects_non_pdf (file : DOM.File) (rest : list DOM.File)
  (c : App.Config) :
  DOM.type file <> "application/pdf" ->
  App.enabled (App.DropFiles (file :: rest)) c = true ->
  let c' := App.step env c (App.DropFiles (file :: rest)) in
  App.ui c' = App.ui c /\
  App.analyses c' = App.analyses c /\
  App.trace c' =
    App.trace c ++ [(App.minted c, App.Alert "Please upload a PDF file.")].
Proof.
  intros Hty Hen c'. subst c'. unfold App.step. rewrite Hen.
  cbn [App.handle]. unfold Upload.handleDrop.
  destruct (String.eqb_spec (DOM.type file) "application/pdf"); [done|].
  simpl. by rewrite commit_same_url.
Qed.

End UploadFacts.


(* ================================================================== *)
(** * Facts about the viewer *)
(* ================================================================== *)

Section Navigation.

Local Open Scope Z_scope.

Lemma changePage_inRange delta s box :
  Viewer.inRange s -> Viewer.inRange (Viewer.changePage delta s box).1.
Proof. unfold Viewer.inRange, Viewer.changePage. simpl. lia. Qed.

Lemma handlePageSubmit_cases s box :
  match JS.parseInt (Viewer.pageInput s) with
  | Some p =>
      if (1 <=? p) && (p <=? Viewer.numPages s)
      then Viewer.handlePageSubmit s box =
             (Viewer.setPageNum p s, Viewer.scrollToTop box)
      else Viewer.handlePageSubmit s box =
             (Viewer.setPageInput (JS.toString (Viewer.pageNum s)) s, box)
  | None =>
      Viewer.handlePageSubmit s box =
        (Viewer.setPageInput (JS.toString (Viewer.pageNum s)) s, box)
  end.
Proof.
  unfold Viewer.handlePageSubmit.
  destruct (JS.parseInt (Viewer.pageInput s)) as [p|]; [|done].
  by destruct ((1 <=? p) && (p <=? Viewer.numPages s)).
Qed.

Lemma handlePageSubmit_inRange s box :
  Viewer.inRange s -> Viewer.inRange (Viewer.handlePageSubmit s box).1.
Proof.
  intros Hs. pose proof (handlePageSubmit_cases s box) as Hc.
  destruct (JS.parseInt (Viewer.pageInput s)) as [p|]; [|by rewrite Hc].
  destruct ((1 <=? p) && (p <=? Viewer.numPages s)) eqn:Hp; rewrite Hc;
    [|done].
  apply andb_true_iff in Hp as [H1 H2].
  unfold Viewer.inRange in *. simpl. lia.
Qed.

(** A listener that closes over the state it acts on keeps the page in
    range: its guard is about the page it changes. *)
Lemma onWheel_inRange e s box :
  Viewer.inRange s -> Viewer.inRange (Viewer.onWheel s e s box).1.
Proof.
  intros Hs. unfold Viewer.onWheel, Viewer.inRange in *.
  repeat case_match; simpl; lia.
Qed.

Lemma syncInput_pageNum before after :
  Viewer.pageNum (Viewer.syncInput before after) = Viewer.pageNum after /\
  Viewer.numPages (Viewer.syncInput before after) = Viewer.numPages after.
Proof. unfold Viewer.syncInput. by case_match. Qed.

Lemma step_inRange c ev :
  Viewer.inRange c.1 -> Viewer.inRange (Viewer.step c ev).1.
Proof.
  intros Hs. unfold Viewer.step.
  destruct (Viewer.enabled ev c.1) eqn:Hen; [|done].
  destruct c as [s box]. simpl in *.
  assert (Viewer.inRange (Viewer.handle s ev s box).1) as Hh.
  { destruct ev; cbn [Viewer.handle fst].
    - simpl in Hen. apply Z.leb_le in Hen. unfold Viewer.inRange. simpl. lia.
    - by apply changePage_inRange.
    - by apply changePage_inRange.
    - done.
    - by apply handlePageSubmit_inRange.
    - by apply onWheel_inRange.
    - done. }
  destruct (Viewer.handle s ev s box) as [s' box']. simpl in *.
  unfold Viewer.inRange.
  by destruct (syncInput_pageNum s s') as [-> ->].
Qed.

Lemma run_inRange evs c :
  Viewer.inRange c.1 -> Viewer.inRange (Viewer.run evs c).1.
Proof.
  revert c. induction evs as [|ev evs IH]; intros c Hc; [done|].
  simpl. by apply IH, step_inRange.
Qed.

(** What holds when every event arrives after the passive effects of the
    last render have run ([Viewer.step]), so that the wheel listener is up
    to date: once a document of at least one page is open, the page stays
    within [[1, numPages]].  A submitted entry is judged by [parseInt]:
    when [parseInt] gives no number, or a number outside [[1, numPages]],
    the page is left as it is; when it gives a number within the range,
    that number is the new page, whatever follows the digits in the
    entry. *)
Theorem page_stays_in_range
  (n : Z) (evs : list Viewer.Event) (box : Viewer.Container) :
  1 <= n ->
  let c := Viewer.run (Viewer.DocumentLoaded n :: evs)
             (Viewer.initialState, box) in
  Viewer.inRange c.1 /\
  Viewer.inRange (Viewer.step c Viewer.SubmitPage).1 /\
  ((forall p, JS.parseInt (Viewer.pageInput c.1) = Some p ->
              ~ 1 <= p <= Viewer.numPages c.1) ->
   Viewer.pageNum (Viewer.step c Viewer.SubmitPage).1 = Viewer.pageNum c.1) /\
  (forall p, JS.parseInt (Viewer.pageInput c.1) = Some p ->
             1 <= p <= Viewer.numPages c.1 ->
   Viewer.pageNum (Viewer.step c Viewer.SubmitPage).1 = p).
Proof.
  intros Hn c.
  assert (Hc : Viewer.inRange c.1).
  { subst c. simpl. apply run_inRange. unfold Viewer.step. simpl.
    rewrite (proj2 (Z.leb_le 1 n)) by done. unfold Viewer.inRange. simpl.
    lia. }
  split; [done|]. split; [by apply step_inRange|].
  destruct c as [s box']. simpl in *.
  unfold Viewer.step. simpl. pose proof (handlePageSubmit_cases s box') as Hs.
  split.
  - intros Hbad. destruct (JS.parseInt (Viewer.pageInput s)) as [p|].
    + destruct ((1 <=? p) && (p <=? Viewer.numPages s)) eqn:Hp; rewrite Hs;
        simpl.
      * apply andb_true_iff in Hp as [H1 H2]. destruct (Hbad p eq_refl). lia.
      * by rewrite (proj1 (syncInput_pageNum _ _)).
    + rewrite Hs. simpl. by rewrite (proj1 (syncInput_pageNum _ _)).
  - intros p Hp Hr. rewrite Hp in Hs.
    rewrite (proj2 (Z.leb_le 1 p)), (proj2 (Z.leb_le p _)) in Hs by lia.
    simpl in Hs. rewrite Hs. simpl. by rewrite (proj1 (syncInput_pageNum _ _)).
Qed.

(** The entry [2abc] is not a number, and submitting it moves a three-page
    document from page 1 to page 2. *)
Lemma entry_with_trailing_text_is_accepted :
  digitsOnly "2abc" = false /\
  Viewer.pageNum
    (Viewer.run [Viewer.DocumentLoaded 3; Viewer.TypePage "2abc"]
       (Viewer.initialState, Examples.fits)).1 = 1 /\
  Viewer.pageNum
    (Viewer.run Examples.typed2abc (Viewer.initialState, Examples.fits)).1 = 2.
Proof. by vm_compute. Qed.

(** [page_stays_in_range] at a concrete input: three pages, and the entry
    [7]. *)
Lemma page_stays_in_range_witness :
  let c := Viewer.run [Viewer.DocumentLoaded 3; Viewer.TypePage "7"]
             (Viewer.initialState, Examples.fits) in
  1 <= 3 /\
  Viewer.inRange c.1 /\
  Viewer.pageNum (Viewer.step c Viewer.SubmitPage).1 = Viewer.pageNum c.1.
Proof.
  assert (H3 : 1 <= 3) by lia.
  destruct (page_stays_in_range 3 [Viewer.TypePage "7"] Examples.fits H3)
    as (Hin & _ & Hrej & _).
  split; [exact H3|]. split; [exact Hin|].
  apply Hrej. intros p Hp. vm_compute in Hp.
  injection Hp as <-. vm_compute. intros [_ Hle]. apply Hle. reflexivity.
Defined.

(** [Viewer.step] is the delivery of an event to up-to-date listeners
    followed by the effects of the render it causes. *)
Lemma step_is_deliver_then_effects s box ev :
  let l := {| Viewer.live := s; Viewer.registered := s;
              Viewer.container := box |} in
  let l' := Viewer.liveRun [Viewer.Deliver ev; Viewer.RunEffects] l in
  (Viewer.live l', Viewer.container l') = Viewer.step (s, box) ev /\
  Viewer.registered l' = Viewer.live l'.
Proof.
  unfold Viewer.step. simpl. destruct (Viewer.enabled ev s); simpl.
  - by destruct (Viewer.handle s ev s box) as [s' box'].
  - unfold Viewer.syncInput. by rewrite Z.eqb_refl.
Qed.

(** The buttons clamp: whatever the page was, a click leaves it within the
    range of a document that has a page. *)
Lemma changePage_lands_inRange delta s box :
  1 <= Viewer.numPages s ->
  Viewer.inRange (Viewer.changePage delta s box).1.
Proof. unfold Viewer.inRange, Viewer.changePage. simpl. lia. Qed.

(** Wheel events that reach one and the same listener: its guard keeps
    reading the page it was registered with, its updater keeps adding to
    the page of the moment. *)
Lemma wheel_burst e k l :
  Viewer.ctrlKey e = false -> 0 < Viewer.deltaY e ->
  Viewer.isLoading (Viewer.registered l) = false ->
  Viewer.pageNum (Viewer.registered l) < Viewer.numPages (Viewer.registered l) ->
  Viewer.scrollTop (Viewer.container l) = 0 ->
  Z.abs (Viewer.scrollHeight (Viewer.container l) -
         Viewer.clientHeight (Viewer.container l)) <= 1 ->
  let l' := Viewer.liveRun (repeat (Viewer.Deliver (Viewer.Wheel e)) k) l in
  Viewer.pageNum (Viewer.live l') = Viewer.pageNum (Viewer.live l) + Z.of_nat k /\
  Viewer.numPages (Viewer.live l') = Viewer.numPages (Viewer.live l) /\
  Viewer.registered l' = Viewer.registered l.
Proof.
  intros Hctrl Hdown Hload Hguard. revert l Hload Hguard.
  induction k as [|k IH]; intros l Hload Hguard Htop Hfits.
  { simpl. split; [lia|done]. }
  cbn [repeat Viewer.liveRun foldl].
  set (l1 := Viewer.liveStep l (Viewer.Deliver (Viewer.Wheel e))).
  assert (H1 : Viewer.live l1 =
                 Viewer.setPageNum (Viewer.pageNum (Viewer.live l) + 1)
                   (Viewer.live l) /\
               Viewer.registered l1 = Viewer.registered l /\
               Viewer.container l1 = Viewer.scrollToTop (Viewer.container l)).
  { subst l1. simpl. unfold Viewer.onWheel. rewrite Hctrl, Hload, Htop.
    rewrite (proj2 (Z.ltb_lt _ _) Hdown), (proj2 (Z.ltb_lt _ _) Hguard).
    rewrite Z.sub_0_r, (proj2 (Z.leb_le _ _) Hfits). done. }
  destruct H1 as (Hlive & Hreg & Hbox).
  destruct (IH l1) as (Hp & Hn & Hr).
  - by rewrite Hreg.
  - by rewrite Hreg.
  - by rewrite Hbox.
  - by rewrite Hbox.
  - fold (Viewer.liveRun (repeat (Viewer.Deliver (Viewer.Wheel e)) k) l1).
    rewrite Hp, Hn, Hr, Hlive, Hreg. simpl. split; [lia|done].
Qed.

(** C7, the defect.  The wheel listener is registered by a passive effect;
    its guard [pageNum < numPages] reads the page of the render it was
    registered in, its updater [prev => prev + 1] acts on the page of the
    moment.  On a page that fits its container, every wheel event that
    turns down before the effect has run again turns one page more: after
    [k] of them a document of [n] pages that was opened on page 1 is on
    page [1 + k], which is outside the range as soon as [n <= k], and it
    is still there once the effects have run.  The buttons do clamp:
    whatever the page, a click on one of them leaves it in range. *)
Theorem wheel_burst_leaves_the_range
  (n : Z) (k : nat) (e : Viewer.WheelEvent) (box : Viewer.Container) :
  1 < n ->
  Viewer.ctrlKey e = false -> 0 < Viewer.deltaY e ->
  Viewer.scrollTop box = 0 ->
  Z.abs (Viewer.scrollHeight box - Viewer.clientHeight box) <= 1 ->
  let opened :=
    Viewer.liveRun [Viewer.Deliver (Viewer.DocumentLoaded n);
                    Viewer.RunEffects] (Viewer.mounted_on box) in
  let l :=
    Viewer.liveRun (repeat (Viewer.Deliver (Viewer.Wheel e)) k) opened in
  Viewer.inRange (Viewer.live opened) /\
  Viewer.numPages (Viewer.live l) = n /\
  Viewer.pageNum (Viewer.live l) = 1 + Z.of_nat k /\
  (n <= Z.of_nat k ->
   ~ Viewer.inRange (Viewer.live l) /\
   ~ Viewer.inRange (Viewer.live (Viewer.liveStep l Viewer.RunEffects))) /\
  (forall delta,
     Viewer.inRange
       (Viewer.changePage delta (Viewer.live l) (Viewer.container l)).1).
Proof.
  intros Hn Hctrl Hdown Htop Hfits opened l.
  assert (Hopen : Viewer.live opened =
                    Viewer.loadPdf_settled n Viewer.initialState /\
                  Viewer.registered opened = Viewer.live opened /\
                  Viewer.container opened = box).
  { subst opened. simpl. rewrite (proj2 (Z.leb_le 1 n)) by lia. simpl.
    unfold Viewer.syncInput. simpl. done. }
  destruct Hopen as (Hlive & Hreg & Hbox).
  destruct (wheel_burst e k opened) as (Hp & Hk & _); try done.
  - by rewrite Hreg, Hlive.
  - by rewrite Hreg, Hlive.
  - by rewrite Hbox.
  - by rewrite Hbox.
  - fold l in Hp, Hk. rewrite Hlive in Hp, Hk. simpl in Hp, Hk.
    split; [rewrite Hlive; unfold Viewer.inRange; simpl; lia|].
    split; [done|]. split; [done|]. split.
    + intros Hle. unfold Viewer.inRange. simpl.
      rewrite (proj1 (syncInput_pageNum _ _)), (proj2 (syncInput_pageNum _ _)).
      rewrite Hp, Hk. lia.
    + intros delta. apply changePage_lands_inRange. lia.
Qed.

(** [wheel_burst_leaves_the_range] at a concrete input: a document of three
    pages that fits its container, and three wheel events. *)
Lemma wheel_burst_witness :
  let l :=
    Viewer.liveRun
      (Viewer.Deliver (Viewer.DocumentLoaded 3) :: Viewer.RunEffects ::
       repeat (Viewer.Deliver (Viewer.Wheel Examples.wheelDown)) 3)
      (Viewer.mounted_on Examples.fits) in
  Viewer.pageNum (Viewer.live l) = 4 /\
  Viewer.numPages (Viewer.live l) = 3 /\
  ~ Viewer.inRange (Viewer.live l).
Proof.
  assert (H3 : 1 < 3) by lia.
  assert (Hd : 0 < Viewer.deltaY Examples.wheelDown) by (simpl; lia).
  assert (Hf : Z.abs (Viewer.scrollHeight Examples.fits -
                      Viewer.clientHeight Examples.fits) <= 1)
    by (simpl; lia).
  destruct (wheel_burst_leaves_the_range 3 3 Examples.wheelDown Examples.fits
              H3 eq_refl Hd eq_refl Hf) as (_ & Hn & Hp & Hout & _).
  assert (H33 : 3 <= Z.of_nat 3) by (simpl; lia).
  exact (conj Hp (conj Hn (proj1 (Hout H33)))).
Defined.

(** The same from the other end: on page 2 of 3, two wheel events that
    turn up and reach one listener leave the viewer on page 0. *)
Lemma wheel_burst_up_goes_below_one :
  let l :=
    Viewer.liveRun
      [Viewer.Deliver (Viewer.DocumentLoaded 3); Viewer.RunEffects;
       Viewer.Deliver Viewer.ClickNext; Viewer.RunEffects;
       Viewer.Deliver (Viewer.Wheel MoreExamples.wheelUp);
       Viewer.Deliver (Viewer.Wheel MoreExamples.wheelUp);
       Viewer.RunEffects]
      (Viewer.mounted_on Examples.fits) in
  Viewer.pageNum (Viewer.live l) = 0 /\
  Viewer.pageInput (Viewer.live l) = "0" /\
  Viewer.numPages (Viewer.live l) = 3.
Proof. by vm_compute. Qed.

End Navigation.

Section Rendering.

(** The [catch] block logs every error but the cancellation exception. *)
Lemma catch_logs_unless_cancelled err log :
  Viewer.catch Viewer.cancelled log = log /\
  (JS.name err <> Some "RenderingCancelledException" ->
   Viewer.catch err log = log ++ [("Render error:", err)]).
Proof.
  split; [done|]. intros Hn. unfold Viewer.catch.
  by rewrite bool_decide_eq_false_2.
Qed.

(** When the first call has started its task, a second call cancels it:
    the cancellation is swallowed, and the second bitmap is the only one
    painted. *)
Lemma second_call_cancels_running_task policy (p1 p2 : Viewer.Params) :
  let r := Viewer.renderRun policy
             [Viewer.RenderPage p1; Viewer.PageReady 0 true; Viewer.RenderPage p2;
              Viewer.TaskRejects 0 Viewer.cancelled; Viewer.PageReady 1 true;
              Viewer.TaskCompletes 0; Viewer.TaskCompletes 1] Viewer.idle in
  Viewer.painted r = [p2] /\ Viewer.console r = [] /\
  Viewer.status <$> Viewer.tasks r = [Viewer.Cancelled; Viewer.Completed].
Proof. by destruct policy. Qed.

(** C2, the defect.  [renderTaskRef] is assigned after
    [await pdfDoc.getPage(pageNum)].  A second call made while the first
    still awaits its page finds no task to cancel: after the two calls
    nothing is cancelled and both calls go on.  When the library lets two
    tasks draw on one canvas both bitmaps are painted; when it rejects the
    second task, the bitmap painted is the first call's and the rejection
    is logged.  Either way no task was cancelled, and unless the two calls
    asked for the same page at the same scale the canvas does not end with
    the second bitmap alone. *)
Theorem overlapping_calls_are_not_cancelled
  (policy : Viewer.SameCanvas) (p1 p2 : Viewer.Params) :
  let r2 := Viewer.renderRun policy
              [Viewer.RenderPage p1; Viewer.RenderPage p2] Viewer.idle in
  let r := Viewer.renderRun policy
             [Viewer.RenderPage p1; Viewer.RenderPage p2;
              Viewer.PageReady 0 true; Viewer.PageReady 1 true;
              Viewer.TaskCompletes 0; Viewer.TaskCompletes 1] Viewer.idle in
  Viewer.renderTaskRef r2 = None /\
  Viewer.tasks r2 = [] /\
  Viewer.calls r2 = [Viewer.AwaitGetPage p1; Viewer.AwaitGetPage p2] /\
  Viewer.painted r =
    match policy with
    | Viewer.Allow => [p1; p2]
    | Viewer.Reject => [p1]
    end /\
  Viewer.status <$> Viewer.tasks r =
    match policy with
    | Viewer.Allow => [Viewer.Completed; Viewer.Completed]
    | Viewer.Reject => [Viewer.Completed; Viewer.Failed]
    end /\
  Viewer.console r =
    match policy with
    | Viewer.Allow => []
    | Viewer.Reject => [("Render error:", Viewer.sameCanvasError)]
    end /\
  (p1 <> p2 -> Viewer.painted r <> [p2]).
Proof.
  destruct policy; repeat split; try reflexivity.
  - intros _. discriminate.
  - intros Hne. change (Viewer.painted _) with [p1]. congruence.
Qed.

(** [overlapping_calls_are_not_cancelled] at a concrete input: page 1,
    then page 2, at scale 1.0. *)
Lemma overlapping_calls_witness :
  Examples.firstRender <> Examples.secondRender /\
  Viewer.painted
    (Viewer.renderRun Viewer.Reject Examples.overlapping Viewer.idle) <>
    [Examples.secondRender] /\
  Viewer.painted
    (Viewer.renderRun Viewer.Allow Examples.overlapping Viewer.idle) <>
    [Examples.secondRender].
Proof.
  assert (Hne : Examples.firstRender <> Examples.secondRender) by discriminate.
  split; [exact Hne|]. split.
  - exact (proj2 (proj2 (proj2 (proj2 (proj2 (proj2
             (overlapping_calls_are_not_cancelled Viewer.Reject
                Examples.firstRender Examples.secondRender)))))) Hne).
  - exact (proj2 (proj2 (proj2 (proj2 (proj2 (proj2
             (overlapping_calls_are_not_cancelled Viewer.Allow
                Examples.firstRender Examples.secondRender)))))) Hne).
Defined.

End Rendering.


(* ================================================================== *)
(** * Further facts about the analysis client *)
(* ================================================================== *)

Lemma split_noComma s : noComma s = true -> JS.split "," s = [s].
Proof.
  induction s as [|c s IH]; [done|]. simpl.
  intros [Hc Hs]%andb_true_iff. apply negb_true_iff in Hc.
  by rewrite Hc, (IH Hs).
Qed.

Lemma split_at_comma prefix rest :
  noComma prefix = true ->
  JS.split "," (prefix ++ String "," rest)%string = prefix :: JS.split "," rest.
Proof.
  induction prefix as [|c p IH]; [done|]. simpl.
  intros [Hc Hp]%andb_true_iff. apply negb_true_iff in Hc.
  by rewrite Hc, (IH Hp).
Qed.



Section ClientMore.
Context `{JsonRuntime}.

(** Neither operation retries: a call sends at most one request.
    [analyzePaper] sends one exactly when a credential is configured and
    the file could be read, [translateAnalysis] exactly when a credential
    is configured; the outcome of the request does not matter. *)
Theorem at_most_one_request
  (env : Service.Env) (file : DOM.File) (aio : Service.AnalyzeIO)
  (d : PaperAnalysis) (tio : Service.TranslateIO) :
  length (Service.networkOf (Service.analyzePaper env file aio).2) =
    (if JS.truthy (Service.API_KEY env) then
       match Service.reader aio with inr _ => 1 | inl _ => 0 end
     else 0) /\
  length (Service.networkOf (Service.translateAnalysis env d tio).2) =
    (if JS.truthy (Service.API_KEY env) then 1 else 0).
Proof.
  unfold Service.analyzePaper, Service.translateAnalysis.
  destruct (JS.truthy (Service.API_KEY env)); simpl; [|done]. split.
  - destruct (Service.reader aio) as [e|url]; simpl; [done|].
    destruct (Service.generated aio) as [e|t]; [done|].
    by destruct (Service.readResponse t).
  - destruct tio as [e|t]; [done|]. by destruct (Service.readResponse t).
Qed.

(** The request of [analyzePaper] carries the payload of the data URL as an
    inline part labelled [application/pdf], whatever the type of the file,
    together with the fixed prompt, the model name, the configured key and
    the response schema. *)
Theorem analyze_request_contents
  (env : Service.Env) (file : DOM.File) (aio : Service.AnalyzeIO)
  (key header payload : string) :
  Service.API_KEY env = Some key -> key <> "" ->
  noComma header = true -> noComma payload = true ->
  Service.reader aio = inr (header ++ String "," payload)%string ->
  Service.networkOf (Service.analyzePaper env file aio).2 =
    [{| Service.apiKey := key;
        Service.model := "gemini-2.5-flash";
        Service.parts :=
          [Service.inlineData "application/pdf" (Some payload);
           Service.text Service.analyzePrompt];
        Service.config :=
          Service.config (Service.analyzeRequest key (Some payload)) |}] /\
  Service.responseMimeType
    (Service.config (Service.analyzeRequest key (Some payload))) =
    "application/json".
Proof.
  intros Hkey Hne Hh Hp Hr. split; [|done].
  unfold Service.analyzePaper. rewrite Hkey, Hr. simpl.
  destruct (String.eqb_spec key ""); [done|]. simpl.
  rewrite split_at_comma, split_noComma by done. simpl.
  destruct (Service.generated aio) as [e|t]; [done|].
  by destruct (Service.readResponse t).
Qed.

(** What the caller sees of a failure.  A file that cannot be read rejects
    with the reader's own value, unlogged and before any request.  An error
    thrown by the remote call is logged once and rethrown as it is.  A
    missing or empty answer is logged once and rejects with the fixed
    "No response received from Gemini." error. *)
Theorem failures_reach_the_caller
  (env : Service.Env) (file : DOM.File) (aio : Service.AnalyzeIO)
  (d : PaperAnalysis) (err : JS.Thrown) :
  JS.truthy (Service.API_KEY env) = true ->
  (Service.reader aio = inl err ->
   Service.analyzePaper env file aio =
     (Service.Rejected Service.FileReadError err, [])) /\
  (forall url, Service.reader aio = inr url ->
   Service.generated aio = inl err ->
   (Service.analyzePaper env file aio).1 =
     Service.Rejected Service.UpstreamError err /\
   filter (fun e => isLogged e = true) (Service.analyzePaper env file aio).2 =
     [Service.ConsoleError "Error analyzing paper:" err]) /\
  (forall url t, Service.reader aio = inr url ->
   Service.generated aio = inr t -> JS.truthy t = false ->
   (Service.analyzePaper env file aio).1 =
     Service.Rejected Service.UpstreamError
       (JS.newError "No response received from Gemini.") /\
   filter (fun e => isLogged e = true) (Service.analyzePaper env file aio).2 =
     [Service.ConsoleError "Error analyzing paper:"
        (JS.newError "No response received from Gemini.")]) /\
  (Service.translateAnalysis env d (inl err)).1 =
    Service.Rejected Service.UpstreamError err /\
  filter (fun e => isLogged e = true)
    (Service.translateAnalysis env d (inl err)).2 =
    [Service.ConsoleError "Error translating analysis:" err] /\
  (forall t, JS.truthy t = false ->
   (Service.translateAnalysis env d (inr t)).1 =
     Service.Rejected Service.UpstreamError
       (JS.newError "No response received from Gemini.") /\
   filter (fun e => isLogged e = true)
     (Service.translateAnalysis env d (inr t)).2 =
     [Service.ConsoleError "Error translating analysis:"
        (JS.newError "No response received from Gemini.")]).
Proof.
  intros Hkey. unfold Service.analyzePaper, Service.translateAnalysis.
  rewrite Hkey. simpl. split; [by intros ->|].
  split; [intros url Hr Hg; by rewrite Hr, Hg|].
  split.
  { intros url t Hr Hg Ht. rewrite Hr, Hg. unfold Service.readResponse.
    by rewrite Ht. }
  split; [done|]. split; [done|].
  intros t Ht. unfold Service.readResponse. by rewrite Ht.
Qed.

End ClientMore.


(* ================================================================== *)
(** * Further facts about the controller *)
(* ================================================================== *)

Lemma ui_emitAll es c : App.ui (App.emitAll es c) = App.ui c.
Proof.
  revert c. induction es as [|e es IH]; intros c; [done|].
  simpl. by rewrite IH.
Qed.

Lemma analyses_emitAll es c : App.analyses (App.emitAll es c) = App.analyses c.
Proof.
  revert c. induction es as [|e es IH]; intros c; [done|].
  simpl. by rewrite IH.
Qed.

Lemma ui_commit c c' : App.ui (App.commit c c') = App.ui c'.
Proof. unfold App.commit. destruct (App.pdfUrl (App.ui c)); [|done]. by case_decide. Qed.

Lemma analyses_commit c c' : App.analyses (App.commit c c') = App.analyses c'.
Proof. unfold App.commit. destruct (App.pdfUrl (App.ui c)); [|done]. by case_decide. Qed.

Lemma Shape_initial : Shape App.initial.
Proof. by split. Qed.

Lemma app_nonempty {A} (l : list A) (x : A) : l ++ [x] <> [].
Proof. by destruct l. Qed.

Lemma Keyless_initial : Keyless App.initial.
Proof. by split. Qed.

Section MoreReachable.
Context `{JsonRuntime}.
Variable env : Service.Env.

Lemma Shape_step c ev : Shape c -> Shape (App.step env c ev).
Proof.
  intros [Hst Hname Hland Hload]. unfold App.step.
  destruct (App.enabled ev c) eqn:Hen; [|done].
  split; rewrite ?ui_commit, ?analyses_commit;
    destruct ev as [files|files| |targetLang|k io|k io]; simpl in Hen |- *.
  (* the analysis state has one of the four shapes *)
  - destruct files as [|file files]; [done|]. unfold Upload.handleDrop.
    by case_match.
  - by destruct files as [|file files].
  - done.
  - destruct (handleLanguageToggle_cases targetLang c)
      as [-> | [-> | (d & _ & _ & _ & _ & ->)]]; done.
  - destruct (App.analyses c !! k) as [file|]; [|done].
    destruct (Service.analyzePaper env file io) as [[d|kind err] effects];
      [by destruct d|done].
  - destruct (App.translations c !! k) as [d|]; [|done].
    destruct (Service.translateAnalysis env d io) as [[r|kind err] effects];
      simpl; by rewrite ?ui_emitAll.
  (* a URL is on display exactly when a file name is *)
  - destruct files as [|file files]; [done|]. unfold Upload.handleDrop.
    by case_match.
  - by destruct files as [|file files].
  - done.
  - destruct (handleLanguageToggle_cases targetLang c)
      as [-> | [-> | (d & _ & _ & _ & _ & ->)]]; done.
  - destruct (App.analyses c !! k) as [file|]; [|done].
    destruct (Service.analyzePaper env file io) as [[d|kind err] effects];
      simpl; by rewrite ?ui_emitAll.
  - destruct (App.translations c !! k) as [d|]; [|done].
    destruct (Service.translateAnalysis env d io) as [[r|kind err] effects];
      simpl; by rewrite ?ui_emitAll.
  (* nothing is loading on the landing view *)
  - destruct files as [|file files]; [done|]. unfold Upload.handleDrop.
    by case_match.
  - by destruct files as [|file files].
  - done.
  - destruct (handleLanguageToggle_cases targetLang c)
      as [-> | [-> | (d & _ & _ & _ & _ & ->)]]; done.
  - destruct (App.analyses c !! k) as [file|]; [|done].
    destruct (Service.analyzePaper env file io) as [[d|kind err] effects];
      done.
  - destruct (App.translations c !! k) as [d|]; [|done].
    destruct (Service.translateAnalysis env d io) as [[r|kind err] effects];
      simpl; by rewrite ?ui_emitAll.
  (* while loading, an analysis is in flight *)
  - destruct files as [|file files]; [done|]. unfold Upload.handleDrop.
    case_match; simpl; [|done]. intros _. apply app_nonempty.
  - destruct files as [|file files]; [done|]. simpl. intros _.
    apply app_nonempty.
  - done.
  - destruct (handleLanguageToggle_cases targetLang c)
      as [-> | [-> | (d & _ & _ & _ & _ & ->)]]; done.
  - destruct (App.analyses c !! k) as [file|]; [|done].
    destruct (Service.analyzePaper env file io) as [[d|kind err] effects];
      done.
  - destruct (App.translations c !! k) as [d|]; [|done].
    destruct (Service.translateAnalysis env d io) as [[r|kind err] effects];
      simpl; by rewrite ?ui_emitAll, ?analyses_emitAll.
Qed.

Lemma Shape_run evs c : Shape c -> Shape (App.run env evs c).
Proof.
  revert c. induction evs as [|ev evs IH]; intros c HS; [done|].
  simpl. by apply IH, Shape_step.
Qed.

Lemma Keyless_step c ev :
  JS.truthy (Service.API_KEY env) = false ->
  Keyless c -> Keyless (App.step env c ev).
Proof.
  intros Hkey [Hreq Htc Hdata Htd Htr]. unfold App.step.
  destruct (App.enabled ev c) eqn:Hen; [|done].
  destruct ev as [files|files| |targetLang|k io|k io]; simpl in Hen |- *.
  - apply bool_decide_eq_true in Hen.
    unfold Upload.handleDrop. destruct files as [|file files]; simpl.
    { by rewrite commit_same_url. }
    case_match; simpl.
    + unfold App.commit, App.handleFileSelect. rewrite Hen. simpl.
      split; simpl; try done; count_simpl; lia.
    + rewrite commit_same_url by done.
      split; simpl; try done; count_simpl; lia.
  - apply andb_true_iff in Hen as [Hen _]. apply bool_decide_eq_true in Hen.
    destruct files as [|file files]; simpl.
    { by rewrite commit_same_url. }
    unfold App.commit, App.handleFileSelect. rewrite Hen. simpl.
    split; simpl; try done; count_simpl; lia.
  - apply bool_decide_eq_true in Hen as [u Hu].
    unfold App.commit, App.handleReset. rewrite Hu. simpl.
    split; simpl; try done; count_simpl; lia.
  - rewrite Hdata in Hen. simpl in Hen. by rewrite andb_false_r in Hen.
  - destruct (App.analyses c !! k) as [file|] eqn:Hk;
      [|by rewrite commit_same_url].
    unfold Service.analyzePaper. rewrite Hkey. simpl.
    rewrite commit_same_url by done.
    split; simpl; try done; count_simpl; lia.
  - apply bool_decide_eq_true in Hen. rewrite Htr in Hen. simpl in Hen. lia.
Qed.

Lemma Keyless_run evs c :
  JS.truthy (Service.API_KEY env) = false ->
  Keyless c -> Keyless (App.run env evs c).
Proof.
  intros Hkey. revert c. induction evs as [|ev evs IH]; intros c HK; [done|].
  simpl. by apply IH, Keyless_step.
Qed.

(** The analysis state is always one of idle, loading, failed and ready:
    never loading together with an error or a result, never an error
    together with a result.  While it says loading, an analysis is in
    flight. *)
Theorem analysis_state_has_four_shapes (evs : list App.Event) :
  let c := App.run env evs App.initial in
  let a := App.state (App.ui c) in
  (isLoading a = true -> error a = None /\ data a = None) /\
  (is_Some (error a) -> data a = None) /\
  (isLoading a = true -> App.analyses c <> []).
Proof.
  intros c a. pose proof (Shape_run evs _ Shape_initial) as [Hst _ _ Hload].
  fold c in Hst, Hload. fold a in Hst, Hload. unfold wellShaped in Hst.
  split; [|split; [|exact Hload]].
  - intros Hl. rewrite Hl in Hst. by destruct (error a), (data a).
  - intros [m Hm]. rewrite Hm in Hst.
    by destruct (isLoading a), (data a).
Qed.

(** The upload surface is rendered when no URL is on display.  Then no
    file name is kept and nothing is loading, so its input is never
    disabled: whenever a drop can be delivered, a choice in the file
    dialog can be delivered too. *)
Theorem upload_surface_is_never_disabled
  (evs : list App.Event) (files : list DOM.File) :
  let c := App.run env evs App.initial in
  (App.pdfUrl (App.ui c) = None <-> App.fileName (App.ui c) = None) /\
  App.enabled (App.ChangeFiles files) c = App.enabled (App.DropFiles files) c.
Proof.
  intros c. pose proof (Shape_run evs _ Shape_initial) as [_ Hname Hland _].
  fold c in Hname, Hland. split; [done|]. simpl.
  case_bool_decide as Hu; [|done]. by rewrite (Hland Hu).
Qed.

(** The toggle is single-flight: at most one translation is in flight,
    [isTranslating] is set exactly while there is one, the active language
    is [en] for as long, and neither language button delivers a click
    until it has settled. *)
Theorem translation_is_single_flight (evs : list App.Event) :
  let c := App.run env evs App.initial in
  length (App.translations c) <= 1 /\
  (App.isTranslating (App.ui c) = true <-> App.translations c <> []) /\
  (App.translations c <> [] -> App.language (App.ui c) = App.en) /\
  (forall targetLang,
     App.translations c <> [] ->
     App.enabled (App.ClickLanguage targetLang) c = false).
Proof.
  intros c. pose proof (Inv_run env evs _ Inv_initial) as HI. fold c in HI.
  split; [|split; [|split]].
  - destruct (inv_flag c HI) as [[-> _]|(d & -> & _)]; simpl; lia.
  - destruct (inv_flag c HI) as [[-> ->]|(d & -> & ->)]; by split.
  - exact (inv_lang c HI).
  - intros targetLang Hne. simpl.
    destruct (inv_flag c HI) as [[Hn _]|(d & _ & ->)]; [done|].
    by rewrite andb_false_r.
Qed.

(** Without a credential, whatever the user does, no request is ever sent,
    no analysis is ever on display and no translation is ever started. *)
Theorem nothing_is_sent_without_credential (evs : list App.Event) :
  JS.truthy (Service.API_KEY env) = false ->
  let c := App.run env evs App.initial in
  App.count App.isRequest (App.trace c) = 0 /\
  App.count App.isTranslate (App.trace c) = 0 /\
  data (App.state (App.ui c)) = None /\
  App.currentAnalysis (App.ui c) = None.
Proof.
  intros Hkey c.
  destruct (Keyless_run evs _ Hkey Keyless_initial) as [Hr Ht Hd Htd _].
  fold c in Hr, Ht, Hd, Htd. repeat split; try done.
  unfold App.currentAnalysis. rewrite Htd, Hd. by rewrite andb_false_r.
Qed.

(** Reset puts every cell back to its initial value except [isTranslating],
    which it leaves, and it does not touch the calls in flight.  After a
    reset the cells are the initial ones exactly when no translation is in
    flight. *)
Theorem reset_leaves_calls_in_flight (evs : list App.Event) :
  let c := App.run env evs App.initial in
  App.enabled App.ClickReset c = true ->
  let c' := App.step env c App.ClickReset in
  App.ui c' =
    App.setIsTranslating (App.isTranslating (App.ui c)) App.initialState /\
  App.analyses c' = App.analyses c /\
  App.translations c' = App.translations c /\
  (App.ui c' = App.initialState <-> App.translations c = []).
Proof.
  intros c Hen c'. pose proof (Inv_run env evs _ Inv_initial) as HI.
  fold c in HI. subst c'. unfold App.step. rewrite Hen.
  apply bool_decide_eq_true in Hen as [u Hu].
  cbn [App.handle]. unfold App.commit, App.handleReset. rewrite Hu. simpl.
  split; [done|]. split; [done|]. split; [done|].
  destruct (inv_flag c HI) as [[Hn Hf]|(d & Hd & Ht)]; split; intros Hx.
  - exact Hn.
  - unfold App.setLanguage, App.setTranslatedData, App.setPdfUrl,
      App.setFileName, App.setState. simpl. by rewrite Hf.
  - apply (f_equal App.isTranslating) in Hx. simpl in Hx. congruence.
  - by rewrite Hd in Hx.
Qed.

Lemma screened_step c ev :
  isPicker ev = false ->
  App.count isAnalyzeOfOther (App.trace c) = 0 ->
  App.count isAnalyzeOfOther (App.trace (App.step env c ev)) = 0.
Proof.
  intros Hev Hc. unfold App.step.
  destruct (App.enabled ev c) eqn:Hen; [|done].
  destruct ev as [files|files| |targetLang|k io|k io]; simpl in Hen |- *;
    [|done|..].
  - apply bool_decide_eq_true in Hen.
    unfold Upload.handleDrop. destruct files as [|file files]; simpl.
    { by rewrite commit_same_url. }
    destruct (String.eqb (DOM.type file) "application/pdf") eqn:Hty; simpl.
    + unfold App.commit, App.handleFileSelect. rewrite Hen. simpl.
      count_simpl. rewrite Hty. simpl. lia.
    + rewrite commit_same_url by done. simpl. count_simpl. lia.
  - apply bool_decide_eq_true in Hen as [u Hu].
    unfold App.commit, App.handleReset. rewrite Hu. simpl.
    count_simpl. lia.
  - destruct (handleLanguageToggle_cases targetLang c)
      as [-> | [-> | (d & _ & _ & _ & _ & ->)]];
      rewrite commit_same_url by done; [done|done|].
    simpl. count_simpl. lia.
  - destruct (App.analyses c !! k) as [file|] eqn:Hk;
      [|by rewrite commit_same_url].
    destruct (Service.analyzePaper env file io) as [o effects].
    destruct (trace_emitAll effects (App.dropAnalysis k c))
      as (Ht & Hu & Hm & Ha & Hl).
    rewrite commit_same_url by (destruct o; simpl; by rewrite ?Hu).
    destruct o as [d|kind err]; simpl;
      rewrite ?Ht; simpl; count_simpl; lia.
  - destruct (App.translations c !! k) as [d|] eqn:Hk;
      [|by rewrite commit_same_url].
    destruct (Service.translateAnalysis env d io) as [o effects].
    destruct (trace_emitAll effects (App.dropTranslation k c))
      as (Ht & Hu & Hm & Ha & Hl).
    rewrite commit_same_url
      by (unfold App.handleLanguageToggle_settled;
          destruct o; simpl; by rewrite ?Hu).
    unfold App.handleLanguageToggle_settled.
    destruct o as [r|kind err]; simpl;
      rewrite ?Ht; simpl; count_simpl; lia.
Qed.

(** Files that are dropped are screened by their type: as long as no file
    comes through the file dialog, [analyzePaper] is never called with a
    file whose type is not [application/pdf]. *)
Theorem dropped_files_are_screened (evs : list App.Event) :
  forallb (fun ev => negb (isPicker ev)) evs = true ->
  App.count isAnalyzeOfOther (App.trace (App.run env evs App.initial)) = 0.
Proof.
  assert (H0 : App.count isAnalyzeOfOther (App.trace App.initial) = 0)
    by done.
  revert H0. generalize App.initial.
  induction evs as [|ev evs IH]; intros c Hc Hevs; [done|].
  simpl in Hevs. apply andb_true_iff in Hevs as [Hev Hevs].
  apply negb_true_iff in Hev. simpl.
  apply IH; [|done]. by apply screened_step.
Qed.

End MoreReachable.


(* ================================================================== *)
(** * Further facts about the viewer *)
(* ================================================================== *)

Section PageBox.
Local Open Scope Z_scope.

Lemma digits_string_of_uint d acc :
  JS.digits 10 (NilEmpty.string_of_uint d) (Some acc) = Some (uintValue d acc).
Proof.
  revert acc. induction d; intros acc; simpl; try done; by rewrite IHd.
Qed.

Lemma digits_string_of_uint_start d :
  d <> Decimal.Nil ->
  JS.digits 10 (NilEmpty.string_of_uint d) None = Some (uintValue d 0).
Proof.
  destruct d; intros Hd; try done; simpl; by rewrite digits_string_of_uint.
Qed.

Lemma of_uint_acc_value d acc :
  Z.pos (Pos.of_uint_acc d acc) = uintValue d (Z.pos acc).
Proof.
  revert acc. induction d; intros acc; simpl; try done; rewrite IHd; f_equal; lia.
Qed.

Lemma of_uint_value d : Z.of_uint d = uintValue d 0.
Proof.
  unfold Z.of_uint. induction d; simpl; try done;
    by rewrite of_uint_acc_value.
Qed.

Lemma afterSign_string_of_uint d :
  d <> Decimal.Nil ->
  afterSign (NilEmpty.string_of_uint d) = Some (uintValue d 0).
Proof.
  intros Hd. rewrite <- (digits_string_of_uint_start d Hd).
  unfold afterSign. destruct d as [|d|d|d|d|d|d|d|d|d|d]; try done.
  by destruct d.
Qed.

Lemma option_map_mul_1 (o : option Z) : option_map (Z.mul 1) o = o.
Proof. destruct o as [v|]; [|done]. simpl. by destruct v. Qed.

(** A string that starts with a byte below 128 other than white space
    has nothing to trim. *)
Lemma trimStart_plain c s :
  JS.isWhiteSpace c = false -> JS.isWideLead c = false ->
  JS.trimStart (String c s) = String c s.
Proof. intros Hw Hl. simpl. by rewrite Hw, Hl. Qed.

Lemma parseInt_unsigned d :
  d <> Decimal.Nil ->
  JS.parseInt (NilEmpty.string_of_uint d) = Some (uintValue d 0).
Proof.
  intros Hd. rewrite <- (afterSign_string_of_uint d Hd).
  destruct d; try done; unfold JS.parseInt, afterSign;
    cbn [NilEmpty.string_of_uint]; rewrite trimStart_plain by done;
    cbn -[JS.digits]; try apply option_map_mul_1.
  destruct d; cbn -[JS.digits]; apply option_map_mul_1.
Qed.

Lemma parseInt_negative s :
  JS.parseInt (String "-" s) = option_map (Z.mul (-1)) (afterSign s).
Proof.
  unfold JS.parseInt, afterSign. rewrite trimStart_plain by done.
  cbn -[JS.digits].
  match goal with |- context [let '(_, _) := ?X in _] => by destruct X end.
Qed.

Lemma parseInt_toString n : JS.parseInt (JS.toString n) = Some n.
Proof.
  unfold JS.toString. rewrite <- (DecimalZ.of_to n) at 2.
  destruct n as [|p|p]; [done| |]; simpl;
    pose proof (DecimalPos.Unsigned.to_uint_nonnil p) as Hp.
  - unfold NilZero.string_of_uint.
    replace (match Pos.to_uint p with
             | Decimal.Nil => "0"
             | _ => NilEmpty.string_of_uint (Pos.to_uint p)
             end) with (NilEmpty.string_of_uint (Pos.to_uint p))
      by (by destruct (Pos.to_uint p)).
    rewrite parseInt_unsigned by done. by rewrite <- of_uint_value.
  - unfold NilZero.string_of_uint.
    replace (match Pos.to_uint p with
             | Decimal.Nil => "0"
             | _ => NilEmpty.string_of_uint (Pos.to_uint p)
             end) with (NilEmpty.string_of_uint (Pos.to_uint p))
      by (by destruct (Pos.to_uint p)).
    rewrite parseInt_negative, afterSign_string_of_uint by done.
    simpl. rewrite <- of_uint_value. f_equal; lia.
Qed.

(** What the effect writes into the page box, [pageNum.toString()], is read
    back by [parseInt] as the same number. *)
Lemma parseInt_toString_pageNum (s : Viewer.State) :
  JS.parseInt (JS.toString (Viewer.pageNum s)) = Some (Viewer.pageNum s).
Proof. apply parseInt_toString. Qed.

(** After a submit the page box always reads as the page on display: a
    rejected entry is replaced by the current page number, an accepted one
    that changes the page is replaced by the new page number, and an
    accepted one that names the page already shown stays as typed. *)
Theorem submit_leaves_box_in_step (s : Viewer.State) (box : Viewer.Container) :
  let c' := Viewer.step (s, box) Viewer.SubmitPage in
  JS.parseInt (Viewer.pageInput c'.1) = Some (Viewer.pageNum c'.1) /\
  (Viewer.pageNum c'.1 <> Viewer.pageNum s ->
   Viewer.pageInput c'.1 = JS.toString (Viewer.pageNum c'.1) /\
   Viewer.scrollTop c'.2 = 0) /\
  (JS.parseInt (Viewer.pageInput s) = Some (Viewer.pageNum s) ->
   1 <= Viewer.pageNum s <= Viewer.numPages s ->
   Viewer.pageInput c'.1 = Viewer.pageInput s).
Proof.
  unfold Viewer.step. simpl.
  pose proof (handlePageSubmit_cases s box) as Hs.
  destruct (JS.parseInt (Viewer.pageInput s)) as [p|] eqn:Hp.
  - destruct ((1 <=? p) && (p <=? Viewer.numPages s)) eqn:Hr; rewrite Hs;
      simpl; unfold Viewer.syncInput; simpl.
    + destruct (Z.eqb_spec (Viewer.pageNum s) p) as [->|Hne]; simpl.
      * split; [done|]. split; [by intros []|done].
      * rewrite parseInt_toString. split; [done|]. split; [done|].
        intros [= ->]. done.
    + rewrite Z.eqb_refl. simpl. rewrite parseInt_toString.
      split; [done|]. split; [by intros []|].
      intros [= ->] [H1 H2]. apply andb_false_iff in Hr as [Hr|Hr]; lia.
  - rewrite Hs. simpl. unfold Viewer.syncInput. simpl.
    rewrite Z.eqb_refl. simpl. rewrite parseInt_toString.
    split; [done|]. split; [by intros []|done].
Qed.

End PageBox.

Section Zoom.
Local Open Scope Z_scope.

Lemma step_scaleInBounds c ev :
  scaleInBounds c.1 -> scaleInBounds (Viewer.step c ev).1.
Proof.
  intros Hs. unfold Viewer.step.
  destruct (Viewer.enabled ev c.1); [|done].
  destruct c as [s box]. simpl in *.
  assert (scaleInBounds (Viewer.handle s ev s box).1) as Hh.
  { unfold scaleInBounds in *.
    destruct ev; cbn [Viewer.handle];
      unfold Viewer.handlePageSubmit, Viewer.onWheel;
      repeat case_match; simpl; lia. }
  destruct (Viewer.handle s ev s box) as [s' box']. simpl in *.
  unfold Viewer.syncInput, scaleInBounds in *. by case_match.
Qed.

(** The scale stays between 50% and 300% whatever the user does: the zoom
    buttons clamp at both ends, the wheel clamps at the end it moves to.
    Zooming, by button or by wheel, never changes the page, and turning
    the page by the buttons never changes the scale. *)
Theorem zoom_stays_in_bounds
  (evs : list Viewer.Event) (box : Viewer.Container) :
  let c := Viewer.run evs (Viewer.initialState, box) in
  50 <= Viewer.scale c.1 <= 300 /\
  (forall delta,
     Viewer.pageNum (Viewer.step c (Viewer.ClickZoom delta)).1 =
       Viewer.pageNum c.1) /\
  (forall dy,
     Viewer.pageNum
       (Viewer.step c (Viewer.Wheel {| Viewer.ctrlKey := true;
                                       Viewer.deltaY := dy |})).1 =
       Viewer.pageNum c.1) /\
  Viewer.scale (Viewer.step c Viewer.ClickNext).1 = Viewer.scale c.1 /\
  Viewer.scale (Viewer.step c Viewer.ClickPrevious).1 = Viewer.scale c.1.
Proof.
  intros c.
  assert (Hc : scaleInBounds c.1).
  { subst c.
    assert (H0 : scaleInBounds (Viewer.initialState, box).1)
      by (unfold scaleInBounds; simpl; lia).
    revert H0. generalize (Viewer.initialState, box).
    induction evs as [|ev evs IH]; intros c0 H0; [done|].
    simpl. apply (IH _ (step_scaleInBounds c0 ev H0)). }
  split; [exact Hc|]. destruct c as [s b]. simpl.
  split; [|split; [|split]].
  - intros delta. unfold Viewer.step. simpl. unfold Viewer.syncInput. simpl.
    by rewrite Z.eqb_refl.
  - intros dy. unfold Viewer.step. simpl. unfold Viewer.onWheel. simpl.
    destruct (dy <? 0); simpl; unfold Viewer.syncInput; simpl;
      by rewrite Z.eqb_refl.
  - unfold Viewer.step. simpl. case_match; [|done]. simpl.
    unfold Viewer.syncInput. by case_match.
  - unfold Viewer.step. simpl. case_match; [|done]. simpl.
    unfold Viewer.syncInput. by case_match.
Qed.

End Zoom.

Section NoDocument.
Local Open Scope Z_scope.

Lemma step_without_document c ev :
  isDocumentLoaded ev = false ->
  Viewer.numPages c.1 = 0 -> Viewer.pageNum c.1 = 1 ->
  Viewer.numPages (Viewer.step c ev).1 = 0 /\
  Viewer.pageNum (Viewer.step c ev).1 = 1.
Proof.
  intros Hev Hn Hp. unfold Viewer.step. destruct c as [s box]. simpl in *.
  destruct ev; try done; simpl.
  - by rewrite Hp.
  - by rewrite Hn, Hp.
  - unfold Viewer.syncInput. simpl. by rewrite Z.eqb_refl.
  - pose proof (handlePageSubmit_cases s box) as Hs.
    destruct (JS.parseInt (Viewer.pageInput s)) as [p|].
    + destruct ((1 <=? p) && (p <=? Viewer.numPages s)) eqn:Hr.
      * apply andb_true_iff in Hr as [H1 H2]. lia.
      * rewrite Hs. simpl. unfold Viewer.syncInput. simpl.
        by rewrite Z.eqb_refl.
    + rewrite Hs. simpl. unfold Viewer.syncInput. simpl.
      by rewrite Z.eqb_refl.
  - unfold Viewer.onWheel. rewrite Hn, Hp.
    repeat case_match; simplify_eq; simpl; unfold Viewer.syncInput; simpl;
      by rewrite ?Z.eqb_refl.
  - unfold Viewer.syncInput. simpl. by rewrite Z.eqb_refl.
Qed.

(** When the document does not open, the failure is logged, the loading
    flag is cleared and nothing else is written: the viewer stays on page 1
    of 0.  From there, and until a document opens, no button, no wheel
    event and no submitted entry moves the page. *)
Theorem nothing_moves_without_document
  (err : JS.Thrown) (evs : list Viewer.Event) (box : Viewer.Container) :
  forallb (fun ev => negb (isDocumentLoaded ev)) evs = true ->
  let failed := Loading.loadPdf_rejected err
                  (Loading.loadPdf Viewer.initialState) in
  let c := Viewer.run evs (failed.1, box) in
  failed.2 = [("Error loading PDF:", err)] /\
  Viewer.isLoading failed.1 = false /\
  Viewer.numPages c.1 = 0 /\ Viewer.pageNum c.1 = 1.
Proof.
  intros Hevs failed c. split; [done|]. split; [done|]. subst c.
  assert (H0 : Viewer.numPages (failed.1, box).1 = 0 /\
               Viewer.pageNum (failed.1, box).1 = 1) by done.
  revert H0. generalize (failed.1, box). clear failed.
  induction evs as [|ev evs IH]; intros c0 [Hn Hp]; [done|].
  simpl in Hevs. apply andb_true_iff in Hevs as [Hev Hevs].
  apply negb_true_iff in Hev. simpl.
  apply (IH Hevs), step_without_document; done.
Qed.

End NoDocument.

Section WheelEdges.
Local Open Scope Z_scope.

(** A wheel event turns at most one page, and only from the edge it pushes
    against: down from the bottom of the page, up from its top.  While the
    page can still scroll that way, while a document is loading, or with
    the control key held, the page stays; when the page turns, the
    container is scrolled back to its top. *)
Theorem wheel_turns_pages_at_the_edges
  (s : Viewer.State) (e : Viewer.WheelEvent) (box : Viewer.Container) :
  let c' := Viewer.step (s, box) (Viewer.Wheel e) in
  (Viewer.pageNum c'.1 = Viewer.pageNum s \/
   Viewer.pageNum c'.1 = Viewer.pageNum s + 1 /\ 0 < Viewer.deltaY e /\
     isAtBottom box = true /\ Viewer.scrollTop c'.2 = 0 \/
   Viewer.pageNum c'.1 = Viewer.pageNum s - 1 /\ Viewer.deltaY e < 0 /\
     isAtTop box = true /\ Viewer.scrollTop c'.2 = 0) /\
  (Viewer.ctrlKey e = true \/ Viewer.isLoading s = true ->
   Viewer.pageNum c'.1 = Viewer.pageNum s) /\
  (0 < Viewer.deltaY e -> isAtBottom box = false ->
   Viewer.pageNum c'.1 = Viewer.pageNum s) /\
  (Viewer.deltaY e < 0 -> isAtTop box = false ->
   Viewer.pageNum c'.1 = Viewer.pageNum s).
Proof.
  unfold Viewer.step, isAtBottom, isAtTop. simpl.
  destruct (Viewer.onWheel s e s box) as [s' box'] eqn:Hw. simpl.
  rewrite (proj1 (syncInput_pageNum s s')).
  unfold Viewer.onWheel in Hw.
  repeat case_match; simplify_eq; simpl;
    (split; [|split; [|split]]);
    try (by left); try done; try lia;
    try (intros [?|?]; done);
    try (right; left; repeat split; try done; lia);
    try (right; right; repeat split; try done; lia);
    try (intros; congruence); try (intros; lia).
Qed.

End WheelEdges.

Section RenderingMore.






Lemma lookup_cancel_settled t t' ts task :
  ts !! t' = Some task -> isSettled task = true ->
  Viewer.cancel t ts !! t' = Some task.
Proof.
  intros Ht' Hs. unfold Viewer.cancel.
  destruct (ts !! t) as [[p st]|] eqn:Ht; [|done].
  destruct st; try done.
  rewrite list_lookup_insert_ne; [done|].
  intros ->. rewrite Ht in Ht'. by simplify_eq.
Qed.


(** A task that stopped drawing keeps its status and its parameters. *)
Lemma step_keeps_settled policy r ev t task :
  Viewer.tasks r !! t = Some task -> isSettled task = true ->
  Viewer.tasks (Viewer.renderStep policy r ev) !! t = Some task.
Proof.
  intros Ht Hs. destruct ev as [p|i context|i err|t'|t' err]; simpl.
  - unfold Viewer.renderPage. destruct (negb (Viewer.mounted r)); [done|].
    simpl. destruct (Viewer.renderTaskRef r); [|done].
    by apply lookup_cancel_settled.
  - unfold Viewer.renderPage_page.
    destruct (Viewer.calls r !! i) as [[p| |]|]; try done.
    destruct (negb context); [done|]. simpl.
    by apply lookup_app_l_Some.
  - unfold Viewer.renderPage_noPage.
    by destruct (Viewer.calls r !! i) as [[p| |]|].
  - unfold Viewer.taskCompletes.
    destruct (Viewer.tasks r !! t') as [[p st]|] eqn:Ht'; [|done].
    destruct st; try done. simpl.
    rewrite list_lookup_insert_ne; [done|].
    intros ->. rewrite Ht in Ht'. by simplify_eq.
  - unfold Viewer.taskRejects.
    destruct (Viewer.tasks r !! t') as [[p st]|] eqn:Ht'; [|done].
    destruct st; try done. simpl.
    rewrite list_lookup_insert_ne; [done|].
    intros ->. rewrite Ht in Ht'. by simplify_eq.
Qed.

Lemma run_keeps_settled policy evs r t task :
  Viewer.tasks r !! t = Some task -> isSettled task = true ->
  Viewer.tasks (Viewer.renderRun policy evs r) !! t = Some task.
Proof.
  revert r. induction evs as [|ev evs IH]; intros r Ht Hs; [done|].
  simpl. apply IH; [|done]. by apply step_keeps_settled.
Qed.





(** A call of [renderPage] that finds a drawing task in [renderTaskRef]
    cancels it.  The task then stays cancelled through everything that
    follows, so it never completes, and when its promise rejects nothing
    is logged. *)
Theorem stored_task_is_cancelled_for_good
  (policy : Viewer.SameCanvas) (r : Viewer.Render) (t : nat)
  (p p' : Viewer.Params) (evs : list Viewer.RenderEvent) (err : JS.Thrown) :
  Viewer.mounted r = true ->
  Viewer.renderTaskRef r = Some t ->
  Viewer.tasks r !! t =
    Some {| Viewer.params := p; Viewer.status := Viewer.Running |} ->
  let r' := Viewer.renderRun policy evs (Viewer.renderPage p' r) in
  Viewer.tasks r' !! t =
    Some {| Viewer.params := p; Viewer.status := Viewer.Cancelled |} /\
  Viewer.painted (Viewer.renderStep policy r' (Viewer.TaskCompletes t)) =
    Viewer.painted r' /\
  Viewer.console (Viewer.renderStep policy r' (Viewer.TaskRejects t err)) =
    Viewer.console r'.
Proof.
  intros Hm Hr Ht r'.
  assert (Hc : Viewer.tasks r' !! t =
    Some {| Viewer.params := p; Viewer.status := Viewer.Cancelled |}).
  { subst r'. apply run_keeps_settled; [|done].
    unfold Viewer.renderPage. rewrite Hm, Hr. simpl.
    unfold Viewer.cancel. rewrite Ht.
    rewrite list_lookup_insert_eq; [done|]. by eapply lookup_lt_Some. }
  split; [exact Hc|]. simpl.
  unfold Viewer.taskCompletes, Viewer.taskRejects. by rewrite Hc.
Qed.

End RenderingMore.


(* ================================================================== *)
(** * The further facts at concrete inputs *)
(* ================================================================== *)

Section FurtherExamples.
Existing Instance MiniJSON.runtime.
Local Open Scope Z_scope.

(** [analyze_request_contents] at a concrete input: the key [secret] and a
    data URL of eight base64 characters. *)
Lemma analyze_request_contents_witness :
  Service.networkOf
    (Service.analyzePaper Examples.env Examples.paper
       (Examples.answers Examples.fullText)).2 =
    [{| Service.apiKey := "secret";
        Service.model := "gemini-2.5-flash";
        Service.parts :=
          [Service.inlineData "application/pdf" (Some "JVBERi0=");
           Service.text Service.analyzePrompt];
        Service.config :=
          Service.config
            (Service.analyzeRequest "secret" (Some "JVBERi0=")) |}].
Proof.
  assert (Hne : "secret" <> "") by discriminate.
  exact (proj1 (analyze_request_contents Examples.env Examples.paper
                  (Examples.answers Examples.fullText)
                  "secret" "data:application/pdf;base64" "JVBERi0="
                  eq_refl Hne eq_refl eq_refl eq_refl)).
Defined.

(** [failures_reach_the_caller] at a concrete input: the file cannot be
    read. *)
Lemma failures_reach_the_caller_witness :
  Service.analyzePaper Examples.env Examples.paper MoreExamples.readerFailed =
    (Service.Rejected Service.FileReadError (JS.OtherValue None), []).
Proof.
  exact (proj1 (failures_reach_the_caller Examples.env Examples.paper
                  MoreExamples.readerFailed Examples.fullRecord
                  (JS.OtherValue None) eq_refl) eq_refl).
Defined.

(** [analysis_state_has_four_shapes] at a concrete input: a paper was
    dropped. *)
Lemma analysis_state_has_four_shapes_witness :
  let c := App.run Examples.env MoreExamples.analysing App.initial in
  isLoading (App.state (App.ui c)) = true /\
  error (App.state (App.ui c)) = None /\
  data (App.state (App.ui c)) = None /\
  App.analyses c <> [].
Proof.
  destruct (analysis_state_has_four_shapes Examples.env MoreExamples.analysing)
    as (Hload & _ & Hflight).
  split; [reflexivity|].
  exact (conj (proj1 (Hload eq_refl))
           (conj (proj2 (Hload eq_refl)) (Hflight eq_refl))).
Defined.

(** [upload_surface_is_never_disabled] at a concrete input: the page as it
    opens. *)
Lemma upload_surface_is_never_disabled_witness :
  App.fileName (App.ui (App.run Examples.env [] App.initial)) = None /\
  App.enabled (App.ChangeFiles [Examples.paper])
    (App.run Examples.env [] App.initial) =
  App.enabled (App.DropFiles [Examples.paper])
    (App.run Examples.env [] App.initial).
Proof.
  destruct (upload_surface_is_never_disabled Examples.env []
              [Examples.paper]) as [Hname Hsame].
  exact (conj (proj1 Hname eq_refl) Hsame).
Defined.

(** [translation_is_single_flight] at a concrete input: a translation is in
    flight. *)
Lemma translation_is_single_flight_witness :
  let c := App.run Examples.env Examples.translating App.initial in
  App.translations c <> [] /\
  App.isTranslating (App.ui c) = true /\
  App.language (App.ui c) = App.en /\
  App.enabled (App.ClickLanguage App.en) c = false.
Proof.
  assert (Hne : App.translations
                  (App.run Examples.env Examples.translating App.initial)
                <> []) by discriminate.
  destruct (translation_is_single_flight Examples.env Examples.translating)
    as (_ & Hflag & Hlang & Hoff).
  exact (conj Hne (conj (proj2 Hflag Hne) (conj (Hlang Hne)
           (Hoff App.en Hne)))).
Defined.

(** The active language can be [zh] with nothing cached: a translation
    that answers [null] is stored as the [null] of the empty cell, and the
    English record stays on display. *)
Lemma zh_with_nothing_cached :
  let c := App.run Examples.env MoreExamples.answeredNull App.initial in
  App.language (App.ui c) = App.zh /\
  App.translatedData (App.ui c) = None /\
  App.currentAnalysis (App.ui c) = Some Examples.fullRecord.
Proof. by vm_compute. Qed.

(** [nothing_is_sent_without_credential] at a concrete input: no key, and
    the user drops a paper, waits and clicks the Chinese button. *)
Lemma nothing_is_sent_without_credential_witness :
  let c := App.run Examples.noKey Examples.translating App.initial in
  JS.truthy (Service.API_KEY Examples.noKey) = false /\
  App.count App.isRequest (App.trace c) = 0%nat /\
  App.count App.isTranslate (App.trace c) = 0%nat /\
  data (App.state (App.ui c)) = None /\
  App.currentAnalysis (App.ui c) = None.
Proof.
  split; [reflexivity|].
  exact (nothing_is_sent_without_credential Examples.noKey
           Examples.translating eq_refl).
Defined.

(** [reset_leaves_calls_in_flight] at a concrete input: a reset while a
    translation is in flight. *)
Lemma reset_leaves_calls_in_flight_witness :
  let c := App.run Examples.env Examples.translating App.initial in
  let c' := App.step Examples.env c App.ClickReset in
  App.enabled App.ClickReset c = true /\
  App.translations c' = App.translations c /\
  App.translations c <> [] /\
  App.ui c' <> App.initialState.
Proof.
  assert (Hen : App.enabled App.ClickReset
                  (App.run Examples.env Examples.translating App.initial) =
                true) by reflexivity.
  destruct (reset_leaves_calls_in_flight Examples.env Examples.translating
              Hen) as (_ & _ & Hsame & Hiff).
  assert (Hne : App.translations
                  (App.run Examples.env Examples.translating App.initial)
                <> []) by discriminate.
  split; [reflexivity|]. split; [exact Hsame|]. split; [exact Hne|].
  intros Hx. exact (Hne (proj1 Hiff Hx)).
Defined.

(** [dropped_files_are_screened] at a concrete input: a text file is
    dropped, then a paper. *)
Lemma dropped_files_are_screened_witness :
  let c := App.run Examples.env MoreExamples.twoDrops App.initial in
  App.count isAnalyzeOfOther (App.trace c) = 0%nat /\
  App.analyses c = [Examples.paper] /\
  App.alerts (App.trace c) = ["Please upload a PDF file."].
Proof.
  split; [|split; reflexivity].
  exact (dropped_files_are_screened Examples.env MoreExamples.twoDrops
           eq_refl).
Defined.

(** [submit_leaves_box_in_step] at a concrete input: [2] is submitted on
    page 1 of 3. *)
Lemma submit_leaves_box_in_step_witness :
  let c' := Viewer.step MoreExamples.typed2 Viewer.SubmitPage in
  Viewer.pageNum c'.1 <> Viewer.pageNum MoreExamples.typed2.1 /\
  Viewer.pageInput c'.1 = JS.toString (Viewer.pageNum c'.1) /\
  Viewer.scrollTop c'.2 = 0.
Proof.
  assert (Hne : Viewer.pageNum
                  (Viewer.step MoreExamples.typed2 Viewer.SubmitPage).1 <>
                Viewer.pageNum MoreExamples.typed2.1) by discriminate.
  split; [exact Hne|].
  exact (proj1 (proj2 (submit_leaves_box_in_step MoreExamples.typed2.1
                         MoreExamples.typed2.2)) Hne).
Defined.

(** [nothing_moves_without_document] at a concrete input: the document is
    unreadable, and the user tries every control. *)
Lemma nothing_moves_without_document_witness :
  let c := Viewer.run MoreExamples.fiddling
             (MoreExamples.closed, MoreExamples.midway) in
  forallb (fun ev => negb (isDocumentLoaded ev)) MoreExamples.fiddling = true /\
  Viewer.numPages c.1 = 0 /\ Viewer.pageNum c.1 = 1.
Proof.
  split; [reflexivity|].
  exact (proj2 (proj2 (nothing_moves_without_document MoreExamples.unreadable
                         MoreExamples.fiddling MoreExamples.midway eq_refl))).
Defined.

(** [wheel_turns_pages_at_the_edges] at a concrete input: the wheel turns
    down in the middle of page 1 of 3. *)
Lemma wheel_turns_pages_at_the_edges_witness :
  0 < Viewer.deltaY Examples.wheelDown /\
  isAtBottom MoreExamples.opened.2 = false /\
  Viewer.pageNum
    (Viewer.step MoreExamples.opened (Viewer.Wheel Examples.wheelDown)).1 =
    Viewer.pageNum MoreExamples.opened.1.
Proof.
  split; [reflexivity|]. split; [reflexivity|].
  exact (proj1 (proj2 (proj2 (wheel_turns_pages_at_the_edges
                                MoreExamples.opened.1 Examples.wheelDown
                                MoreExamples.opened.2)))
           eq_refl eq_refl).
Defined.


(** [stored_task_is_cancelled_for_good] at a concrete input: page 2 is
    asked for while page 1 is being drawn. *)
Lemma stored_task_is_cancelled_for_good_witness :
  let r' := Viewer.renderRun Viewer.Reject MoreExamples.superseded
              (Viewer.renderPage Examples.secondRender MoreExamples.drawing) in
  Viewer.renderTaskRef MoreExamples.drawing = Some 0%nat /\
  Viewer.tasks r' !! 0%nat =
    Some {| Viewer.params := Examples.firstRender;
            Viewer.status := Viewer.Cancelled |} /\
  Viewer.painted r' = [Examples.secondRender] /\
  Viewer.console r' = [].
Proof.
  split; [reflexivity|].
  split; [|split; reflexivity].
  exact (proj1 (stored_task_is_cancelled_for_good Viewer.Reject
                  MoreExamples.drawing 0%nat Examples.firstRender
                  Examples.secondRender MoreExamples.superseded
                  Viewer.cancelled eq_refl eq_refl eq_refl)).
Defined.

End FurtherExamples.
